(** * Routes/Store.py: the Paystack credit-purchase routes

    A shallow embedding of the three request handlers of the store blueprint
    ([checkout], [success], [cancel]) together with the fragment of Python
    they rely on: JSON-shaped values, dictionary and subscript access,
    truthiness, [int()], true division, binary64 arithmetic and exceptions.

    Handlers run in a small state-and-exception monad over a [world] made of
    the Flask session and the ordered log of the effects performed (flashed
    messages, operational log lines, outbound HTTP calls, calls to the credit
    manager).  External collaborators (the HTTP gateway, the configuration,
    the UUID generator, [url_for]) are read from an environment record.

    Conventions.  The collaborators [flash], [webhook_log], [add_credits] and
    [redirect] return normally; the [login_required] guard has already let
    the request through.  The session fields and configuration entries the
    handlers read hold strings, and strings are ASCII. *)

From Stdlib Require Import ZArith String Ascii List Bool Lia QArith Qround.
From Stdlib Require Import Floats.SpecFloat.
From stdpp Require Import gmap strings pretty.

Set Warnings "-register-all".

Local Open Scope string_scope.
Local Open Scope Z_scope.

(** ** Python values and exceptions *)

Module Py.

(** Exception classes the handlers can meet.  [JSONDecodeError] is the one
    raised by [Response.json()]; in the [requests] releases that define it
    (2.27 and later) it derives from [RequestException] as well as from
    [ValueError]. *)
Inductive exn : Type :=
| RequestException
| JSONDecodeError
| StopIteration
| KeyError
| TypeError
| AttributeError
| ValueError
| OverflowError.

Definition is_RequestException (e : exn) : bool :=
  match e with
  | RequestException | JSONDecodeError => true
  | _ => false
  end.

Definition is_StopIteration (e : exn) : bool :=
  match e with
  | StopIteration => true
  | _ => false
  end.

Inductive result (A : Type) : Type :=
| Ok (a : A)
| Raise (e : exn).
Arguments Ok {A} a.
Arguments Raise {A} e.

Definition rbind {A B : Type} (r : result A) (k : A -> result B) : result B :=
  match r with
  | Ok a => k a
  | Raise e => Raise e
  end.

(** What [json.loads] produces.  A [dict] is kept as the list of its items in
    insertion order; a float is an IEEE-754 binary64 value. *)
Inductive json : Type :=
| JNull
| JBool (b : bool)
| JInt (n : Z)
| JFloat (f : spec_float)
| JStr (s : string)
| JList (xs : list json)
| JDict (items : list (string * json)).

(** *** binary64 arithmetic *)

Definition prec : Z := 53.
Definition emax : Z := 1024.

(** [float(n)] for an integer, rounded to nearest even. *)
Definition float_of_Z (n : Z) : spec_float :=
  binary_normalize prec emax n 0 false.

Arguments float_of_Z : simpl never.

Definition float_mul (x y : spec_float) : spec_float := SFmul prec emax x y.
Definition float_div (x y : spec_float) : spec_float := SFdiv prec emax x y.

(** [a / b] on two ints, for a positive divisor: the correctly rounded
    quotient, or [OverflowError] when it exceeds the float range. *)
Definition int_truediv (a : Z) (b : positive) : result spec_float :=
  let q :=
    match a with
    | Z0 => S754_zero false
    | Zpos p => float_div (S754_finite false p 0) (S754_finite false b 0)
    | Zneg p => float_div (S754_finite true p 0) (S754_finite false b 0)
    end in
  match q with
  | S754_infinity _ => Raise OverflowError
  | _ => Ok q
  end.

(** [int(x)] on a float: truncation toward zero. *)
Definition int_of_float (x : spec_float) : result Z :=
  match x with
  | S754_zero _ => Ok 0
  | S754_infinity _ => Raise OverflowError
  | S754_nan => Raise ValueError
  | S754_finite s m e =>
      let a := match e with
               | Z0 => Zpos m
               | Zpos k => Z.shiftl (Zpos m) (Zpos k)
               | Zneg k => Z.shiftr (Zpos m) (Zpos k)
               end in
      Ok (if s then - a else a)
  end.

(** *** [int()] on a string

    Grammar accepted in base 10: blanks, an optional sign, decimal digits
    with single underscores between digits, blanks.  Strings are taken to be
    ASCII; the interpreter's optional cap on the number of digits is not
    modelled. *)

Definition is_space (c : ascii) : bool :=
  let n := nat_of_ascii c in
  ((9 <=? n)%nat && (n <=? 13)%nat) || (n =? 32)%nat.

Definition digit_value (c : ascii) : option Z :=
  let n := nat_of_ascii c in
  if ((48 <=? n)%nat && (n <=? 57)%nat)%bool then Some (Z.of_nat n - 48) else None.

Fixpoint lstrip (s : string) : string :=
  match s with
  | String c s' => if is_space c then lstrip s' else s
  | EmptyString => s
  end.

Fixpoint all_space (s : string) : bool :=
  match s with
  | String c s' => is_space c && all_space s'
  | EmptyString => true
  end.

Inductive scan_state : Type := AtStart | AfterDigit | AfterUnderscore.

Fixpoint scan_digits (st : scan_state) (acc : Z) (s : string) : option Z :=
  let finish rest :=
    match st with
    | AfterDigit => if all_space rest then Some acc else None
    | _ => None
    end in
  match s with
  | EmptyString => finish s
  | String c s' =>
      match digit_value c with
      | Some d => scan_digits AfterDigit (acc * 10 + d) s'
      | None =>
          if Ascii.eqb c "_"%char then
            match st with
            | AfterDigit => scan_digits AfterUnderscore acc s'
            | _ => None
            end
          else finish s
      end
  end.

Definition int_of_str (s : string) : result Z :=
  let body :=
    match lstrip s with
    | String "-" s' => option_map Z.opp (scan_digits AtStart 0 s')
    | String "+" s' => scan_digits AtStart 0 s'
    | s' => scan_digits AtStart 0 s'
    end in
  match body with
  | Some n => Ok n
  | None => Raise ValueError
  end.

(** [int(v)] *)
Definition py_int (v : json) : result Z :=
  match v with
  | JInt n => Ok n
  | JBool b => Ok (if b then 1 else 0)
  | JFloat f => int_of_float f
  | JStr s => int_of_str s
  | JNull | JList _ | JDict _ => Raise TypeError
  end.

(** *** Truthiness, attribute and item access *)

Definition truthy (v : json) : bool :=
  match v with
  | JNull => false
  | JBool b => b
  | JInt n => negb (n =? 0)
  | JFloat (S754_zero _) => false
  | JFloat _ => true
  | JStr EmptyString => false
  | JStr _ => true
  | JList nil => false
  | JList _ => true
  | JDict nil => false
  | JDict _ => true
  end.

Fixpoint lookup_item (k : string) (items : list (string * json)) : option json :=
  match items with
  | nil => None
  | (k', v) :: rest => if String.eqb k' k then Some v else lookup_item k rest
  end.

(** [o.get(k, default)]: only a dict has the method. *)
Definition get (o : json) (k : string) (default : json) : result json :=
  match o with
  | JDict items => Ok (match lookup_item k items with Some v => v | None => default end)
  | _ => Raise AttributeError
  end.

(** [o.get(k, d)] where the default [d] is itself an expression that may
    raise: the method is looked up first, then the argument is evaluated. *)
Definition get_or (o : json) (k : string) (default : result json) : result json :=
  match o with
  | JDict items =>
      match default with
      | Ok d => Ok (match lookup_item k items with Some v => v | None => d end)
      | Raise e => Raise e
      end
  | _ => Raise AttributeError
  end.

(** [o[k]] for a string key [k]. *)
Definition getitem (o : json) (k : string) : result json :=
  match o with
  | JDict items =>
      match lookup_item k items with
      | Some v => Ok v
      | None => Raise KeyError
      end
  | _ => Raise TypeError
  end.

(** [v == s] against a string literal. *)
Definition eq_str (v : json) (s : string) : bool :=
  match v with
  | JStr s' => String.eqb s' s
  | _ => false
  end.

Fixpoint chars (s : string) : list json :=
  match s with
  | EmptyString => nil
  | String c s' => JStr (String c EmptyString) :: chars s'
  end.

(** The sequence a [for] loop walks through. *)
Definition iter (o : json) : result (list json) :=
  match o with
  | JList xs => Ok xs
  | JDict items => Ok (map (fun kv => JStr (fst kv)) items)
  | JStr s => Ok (chars s)
  | JNull | JBool _ | JInt _ | JFloat _ => Raise TypeError
  end.

(** [v / 100] with the int literal as divisor. *)
Definition truediv_int (v : json) (d : positive) : result spec_float :=
  match v with
  | JInt n => int_truediv n d
  | JBool b => int_truediv (if b then 1 else 0) d
  | JFloat f => Ok (float_div f (float_of_Z (Zpos d)))
  | JNull | JStr _ | JList _ | JDict _ => Raise TypeError
  end.

(** *** Strings

    [upper] is [str.upper()] on ASCII text, where it maps a-z to A-Z and
    keeps the length; text with other characters (which [str.upper()] may
    even lengthen) is outside the model, and statements that depend on it
    carry [ascii_only] as a hypothesis. *)

Definition upper_char (c : ascii) : ascii :=
  let n := nat_of_ascii c in
  if ((97 <=? n)%nat && (n <=? 122)%nat)%bool then ascii_of_nat (n - 32) else c.

Fixpoint upper (s : string) : string :=
  match s with
  | EmptyString => EmptyString
  | String c s' => String (upper_char c) (upper s')
  end.

(** [s[:n]] *)
Definition prefix (n : nat) (s : string) : string := substring 0 n s.

(** The parts of an f-string: literal text and interpolated values. *)
Inductive piece : Type :=
| Lit (s : string)
| Str (s : string)
| Val (v : json)
| Num (n : Z)
| Exc (e : exn).

Definition message : Type := list piece.

End Py.

(** ** The request context: session, effects, collaborators *)

Module Flask.
Import Py.

Definition headers : Type := list (string * string).

(** Everything a handler does to the outside, in program order. *)
Inductive event : Type :=
| Flash (msg : message)
| WebhookLog (msg : message) (database_log : bool)
| HttpPost (url : string) (hdrs : headers) (body : json)
| HttpGet (url : string) (hdrs : headers)
| AddCredits (email : json) (amount : Z)
| SessionSet (key value : string)
| SessionPop (key : string).

Record world : Type := World {
  session : gmap string string;
  effects : list event
}.

(** What an outbound call gives back: a transport failure (the client
    raises [RequestException]) or a response whose body may or may not
    decode as JSON. *)
Inductive http_result : Type :=
| ConnectionFailed
| Response (body : option json).

Record env : Type := Env {
  request_args : gmap string string;
  config : gmap string string;
  success_url : string;
  uuid4_hex : string;
  gateway_post : string -> headers -> json -> http_result;
  gateway_get : string -> headers -> http_result
}.

Inductive location : Type :=
| UrlFor (endpoint : string)
| External (url : json).

Inductive response : Type :=
| Redirect (to : location)
| RenderTemplate (name : string) (context : json).

(** State survives an exception: what was written before the raise stays
    written. *)
Definition M (A : Type) : Type := world -> result A * world.

Definition ret {A : Type} (a : A) : M A := fun w => (Ok a, w).

Definition raise {A : Type} (e : exn) : M A := fun w => (Raise e, w).

Definition bind {A B : Type} (m : M A) (k : A -> M B) : M B :=
  fun w =>
    match m w with
    | (Ok a, w') => k a w'
    | (Raise e, w') => (Raise e, w')
    end.

Definition lift {A : Type} (r : result A) : M A := fun w => (r, w).

(** [try: body  except ...: handler]; the handler answers [None] for an
    exception no clause matches, which then propagates. *)
Definition try_except {A : Type} (body : M A) (handler : exn -> option (M A)) : M A :=
  fun w =>
    match body w with
    | (Ok a, w') => (Ok a, w')
    | (Raise e, w') =>
        match handler e with
        | Some h => h w'
        | None => (Raise e, w')
        end
    end.

Definition emit (ev : event) : M unit :=
  fun w => (Ok tt, World (session w) (effects w ++ [ev])).

Definition flash (msg : message) : M unit := emit (Flash msg).

Definition webhook_log (msg : message) (database_log : bool) : M unit :=
  emit (WebhookLog msg database_log).

Definition add_credits (email : json) (amount : Z) : M unit :=
  emit (AddCredits email amount).

(** [session.get(k)] *)
Definition session_get (k : string) : M (option string) :=
  fun w => (Ok (session w !! k), w).

(** [session[k] = v] *)
Definition session_set (k v : string) : M unit :=
  fun w => (Ok tt, World (<[k:=v]> (session w)) (effects w ++ [SessionSet k v])).

(** [session.pop(k, None)] *)
Definition session_pop (k : string) : M unit :=
  fun w => (Ok tt, World (delete k (session w)) (effects w ++ [SessionPop k])).

Definition requests_post (E : env) (url : string) (hdrs : headers) (body : json)
  : M (option json) :=
  bind (emit (HttpPost url hdrs body)) (fun _ =>
    match gateway_post E url hdrs body with
    | ConnectionFailed => raise RequestException
    | Response b => ret b
    end).

Definition requests_get (E : env) (url : string) (hdrs : headers) : M (option json) :=
  bind (emit (HttpGet url hdrs)) (fun _ =>
    match gateway_get E url hdrs with
    | ConnectionFailed => raise RequestException
    | Response b => ret b
    end).

(** [response.json()]: [None] is a body the decoder rejects with
    [JSONDecodeError].  A body on which the decoder gives up for another
    reason (nesting depth, an integer past the digit limit) is outside the
    model. *)
Definition response_json (body : option json) : M json :=
  match body with
  | Some v => ret v
  | None => raise JSONDecodeError
  end.

(** Truthiness of an optional string ([None] and [''] are falsy). *)
Definition nonempty (o : option string) : option string :=
  match o with
  | Some EmptyString => None
  | _ => o
  end.

(** [a or b] *)
Definition or_else (a b : option string) : option string :=
  match nonempty a with
  | Some _ => a
  | None => b
  end.

(** How an optional string prints inside an f-string. *)
Definition str_of (o : option string) : string :=
  match o with
  | Some s => s
  | None => "None"
  end.

End Flask.

Notation "x <- m ;; k" := (Flask.bind m (fun x => k))
  (at level 100, m at next level, right associativity).
Notation "m ;; k" := (Flask.bind m (fun _ => k))
  (at level 100, right associativity).
Notation "x <~ r ;; k" := (Py.rbind r (fun x => k))
  (at level 100, r at next level, right associativity).

(** ** The store blueprint *)

Module Store.
Import Py Flask.

Record product : Type := Product {
  id : Z;
  name : string;
  price : spec_float;
  credits : Z
}.

Definition products : list product :=
  [ Product 1 "Small Credit Pack" (float_of_Z 5) 500;
    Product 2 "Medium Credit Pack" (float_of_Z 10) 1200;
    Product 3 "Large Credit Pack" (float_of_Z 20) 2500 ].

Definition generate_paystack_reference (E : env) (user_email : string) (product_id : Z)
  : string :=
  "LUNES-" ++ upper (prefix 4 user_email) ++ "-" ++ pretty product_id ++ "-"
    ++ upper (prefix 10 (uuid4_hex E)).

Definition product_json (p : product) : json :=
  JDict [("id", JInt (id p)); ("name", JStr (name p));
         ("price", JFloat (price p)); ("credits", JInt (credits p))].

Definition store_page : M response :=
  ret (RenderTemplate "store.html" (JDict [("products", JList (map product_json products))])).

(** [next(p for p in products if p['id'] == product_id)] *)
Definition next_product (product_id : Z) : result product :=
  match List.filter (fun p => id p =? product_id) products with
  | p :: _ => Ok p
  | nil => Raise StopIteration
  end.

(** [int(product['price'] * 100)] *)
Definition amount_in_subunit (p : product) : result Z :=
  int_of_float (float_mul (price p) (float_of_Z 100)).

Definition initialize_payload (E : env) (user_email : string) (amount : Z)
    (transaction_reference : string) (p : product) : json :=
  JDict [("email", JStr user_email);
         ("amount", JInt amount);
         ("callback_url", JStr (success_url E));
         ("reference", JStr transaction_reference);
         ("metadata",
           JDict [("custom_fields",
             JList [JDict [("display_name", JStr "Credits");
                           ("variable_name", JStr "credits_to_add");
                           ("value", JInt (credits p))]])])].

Definition home : response := Redirect (UrlFor "user.index").

(** The [try] block of [checkout]. *)
Definition checkout_call (E : env) (url : string) (hdrs : headers) (payload : json)
    (transaction_reference : string) : M response :=
  response <- requests_post E url hdrs payload ;;
  response_data <- response_json response ;;
  status <- lift (get response_data "status" JNull) ;;
  if truthy status then
    session_set "paystack_reference" transaction_reference ;;
    data <- lift (getitem response_data "data") ;;
    authorization_url <- lift (getitem data "authorization_url") ;;
    ret (Redirect (External authorization_url))
  else
    msg <- lift (get response_data "message" (JStr "Unknown API Error")) ;;
    flash [Lit "Payment initiation failed: "; Val msg] ;;
    ret home.

Definition checkout (E : env) (product_id : Z) : M response :=
  match next_product product_id with
  | Raise e =>
      if is_StopIteration e then
        flash [Lit "Invalid product selected."] ;;
        ret (Redirect (UrlFor "store.store_page"))
      else raise e
  | Ok p =>
      amount <- lift (amount_in_subunit p) ;;
      user_email <- session_get "email" ;;
      match nonempty user_email with
      | None =>
          flash [Lit "User session error: Email not found."] ;;
          ret home
      | Some user_email =>
          match nonempty (config E !! "PAYSTACK_SECRET_KEY") with
          | None =>
              webhook_log [Lit "PAYSTACK_SECRET_KEY not configured."] true ;;
              flash [Lit "Payment gateway not configured correctly."] ;;
              ret home
          | Some secret_key =>
              let transaction_reference :=
                generate_paystack_reference E user_email product_id in
              let url := "https://api.paystack.co/transaction/initialize" in
              let hdrs := [("Authorization", "Bearer " ++ secret_key);
                           ("Content-Type", "application/json")] in
              let payload :=
                initialize_payload E user_email amount transaction_reference p in
              try_except (checkout_call E url hdrs payload transaction_reference)
                (fun e =>
                   if is_RequestException e then
                     Some (webhook_log [Lit "Paystack API initialization error: "; Exc e] true ;;
                           flash [Lit "Could not connect to payment gateway."] ;;
                           ret home)
                   else None)
          end
      end
  end.

(** The [for] loop over the custom fields: the value of the first field named
    [credits_to_add], or the initial 0 when the loop runs to its end. *)
Fixpoint scan_custom_fields (fields : list json) : result Z :=
  match fields with
  | nil => Ok 0
  | field :: rest =>
      variable_name <~ get field "variable_name" JNull ;;
      if eq_str variable_name "credits_to_add" then
        value <~ getitem field "value" ;;
        py_int value
      else scan_custom_fields rest
  end.

(** [int(verified_data['amount'] / 100 * 100)] *)
Definition fallback_credits (verified_data : json) : result Z :=
  amount <~ getitem verified_data "amount" ;;
  amount_paid_major_unit <~ truediv_int amount 100 ;;
  int_of_float (float_mul amount_paid_major_unit (float_of_Z 100)).

Definition resolve_credits (verified_data : json) : result Z :=
  metadata <~ get verified_data "metadata" (JDict []) ;;
  custom_fields <~ get metadata "custom_fields" (JList []) ;;
  fields <~ iter custom_fields ;;
  credits_to_add <~ scan_custom_fields fields ;;
  if credits_to_add =? 0 then fallback_credits verified_data else Ok credits_to_add.

(** [response_data.get('status') and response_data['data']['status'] == 'success'] *)
Definition verified (response_data : json) : result bool :=
  status <~ get response_data "status" JNull ;;
  if truthy status then
    data <~ getitem response_data "data" ;;
    tx_status <~ getitem data "status" ;;
    Ok (eq_str tx_status "success")
  else Ok false.

(** The [try] block of [success]. *)
Definition success_call (E : env) (url : string) (hdrs : headers) (reference : string)
  : M response :=
  response <- requests_get E url hdrs ;;
  response_data <- response_json response ;;
  ok <- lift (verified response_data) ;;
  if ok then
    verified_data <- lift (getitem response_data "data") ;;
    credits_to_add <- lift (resolve_credits verified_data) ;;
    customer <- lift (getitem verified_data "customer") ;;
    user_email <- lift (getitem customer "email") ;;
    add_credits user_email credits_to_add ;;
    webhook_log [Lit "**PAYSTACK PAYMENT**: User: "; Val user_email; Lit " bought ";
                 Num credits_to_add; Lit " credits (Ref: "; Str reference; Lit ")."] true ;;
    flash [Lit "Success! Your account has been credited."] ;;
    ret home
  else
    data <- lift (getitem response_data "data") ;;
    status_msg <- lift (get_or data "gateway_response" (getitem data "status")) ;;
    flash [Lit "Payment failed: "; Val status_msg;
           Lit ". Please try again or contact support with reference: "; Str reference] ;;
    ret home.

Definition success (E : env) : M response :=
  stored <- session_get "paystack_reference" ;;
  match nonempty (or_else (request_args E !! "reference") stored) with
  | None =>
      flash [Lit "Payment verification failed: No transaction reference found."] ;;
      ret home
  | Some reference =>
      session_pop "paystack_reference" ;;
      let secret_key := config E !! "PAYSTACK_SECRET_KEY" in
      let url := "https://api.paystack.co/transaction/verify/" ++ reference in
      let hdrs := [("Authorization", "Bearer " ++ str_of secret_key)] in
      try_except (success_call E url hdrs reference)
        (fun e =>
           if is_RequestException e then
             Some (webhook_log [Lit "Paystack verification API error: "; Exc e] true ;;
                   flash [Lit "Failed to verify payment with Paystack due to a connection error."] ;;
                   ret home)
           else
             Some (webhook_log [Lit "Verification processing error: "; Exc e] true ;;
                   flash [Lit "An internal error occurred during payment verification."] ;;
                   ret home))
  end.

Definition cancel : M response :=
  session_pop "paystack_reference" ;;
  flash [Lit "Payment cancelled. No charge was made."] ;;
  ret home.

End Store.

(** ** Observing one invocation *)

Import Py Flask Store.

(** A request starts from the caller's session with nothing performed yet. *)
Definition run {A : Type} (m : M A) (s : gmap string string) : result A * world :=
  m (World s []).

Definition final_session {A : Type} (r : result A * world) : gmap string string :=
  session (snd r).

Definition performed {A : Type} (r : result A * world) : list event :=
  effects (snd r).

(** The calls made to the credit manager, in order. *)
Fixpoint credit_calls (evs : list event) : list (json * Z) :=
  match evs with
  | nil => nil
  | AddCredits email n :: rest => (email, n) :: credit_calls rest
  | _ :: rest => credit_calls rest
  end.

(** The outbound HTTP calls, in order. *)
Fixpoint outbound_calls (evs : list event) : list event :=
  match evs with
  | nil => nil
  | HttpPost u h b :: rest => HttpPost u h b :: outbound_calls rest
  | HttpGet u h :: rest => HttpGet u h :: outbound_calls rest
  | _ :: rest => outbound_calls rest
  end.

(** Accessors on a gateway response, used to describe its shape. *)
Definition status_flag (r : json) : bool :=
  match r with
  | JDict items =>
      match lookup_item "status" items with
      | Some v => truthy v
      | None => false
      end
  | _ => false
  end.

Definition transaction_status (r : json) : option json :=
  match r with
  | JDict items =>
      match lookup_item "data" items with
      | Some (JDict data) => lookup_item "status" data
      | _ => None
      end
  | _ => None
  end.

(** [response_data['data']['customer']['email']] *)
Definition customer_email (r : json) : result json :=
  data <~ getitem r "data" ;;
  customer <~ getitem data "customer" ;;
  getitem customer "email".

(** [response_data['data'].get('metadata', {}).get('custom_fields', [])] *)
Definition custom_fields (r : json) : result json :=
  data <~ getitem r "data" ;;
  metadata <~ get data "metadata" (JDict []) ;;
  get metadata "custom_fields" (JList []).

(** The reference [success] works with and the request it sends for it. *)
Definition found_reference (E : env) (s : gmap string string) : option string :=
  nonempty (or_else (request_args E !! "reference") (s !! "paystack_reference")).

Definition verify_url (reference : string) : string :=
  "https://api.paystack.co/transaction/verify/" ++ reference.

Definition verify_headers (E : env) : headers :=
  [("Authorization", "Bearer " ++ str_of (config E !! "PAYSTACK_SECRET_KEY"))].

(** What the success branch hands to the credit manager: the account and the
    amount, when every step up to the call goes through. *)
Definition credit_order (r : json) : result (json * Z) :=
  verified_data <~ getitem r "data" ;;
  credits_to_add <~ resolve_credits verified_data ;;
  customer <~ getitem verified_data "customer" ;;
  user_email <~ getitem customer "email" ;;
  Ok (user_email, credits_to_add).

(** The text shown on the failed-payment branch. *)
Definition failure_status (r : json) : result json :=
  data <~ getitem r "data" ;;
  get_or data "gateway_response" (getitem data "status").

(** What the two [except] clauses of [success] perform for an exception. *)
Definition verification_error_effects (e : exn) : list event :=
  if is_RequestException e then
    [WebhookLog [Lit "Paystack verification API error: "; Exc e] true;
     Flash [Lit "Failed to verify payment with Paystack due to a connection error."]]
  else
    [WebhookLog [Lit "Verification processing error: "; Exc e] true;
     Flash [Lit "An internal error occurred during payment verification."]].

Definition credited_effects (reference : string) (user_email : json) (n : Z) : list event :=
  [AddCredits user_email n;
   WebhookLog [Lit "**PAYSTACK PAYMENT**: User: "; Val user_email;
               Lit " bought "; Num n; Lit " credits (Ref: ";
               Str reference; Lit ")."] true;
   Flash [Lit "Success! Your account has been credited."]].

Definition payment_failed_effects (reference : string) (status_msg : json) : list event :=
  [Flash [Lit "Payment failed: "; Val status_msg;
          Lit ". Please try again or contact support with reference: ";
          Str reference]].

(** The effects of [success] after the session pop and the verify call, as
    a function of what the gateway answered. *)
Definition verification_effects (reference : string) (answer : http_result) : list event :=
  match answer with
  | ConnectionFailed => verification_error_effects RequestException
  | Response None => verification_error_effects JSONDecodeError
  | Response (Some r) =>
      match verified r with
      | Raise e => verification_error_effects e
      | Ok true =>
          match credit_order r with
          | Raise e => verification_error_effects e
          | Ok (user_email, n) => credited_effects reference user_email n
          end
      | Ok false =>
          match failure_status r with
          | Raise e => verification_error_effects e
          | Ok status_msg => payment_failed_effects reference status_msg
          end
      end
  end.

(** The request [checkout] sends for a product and a purchaser. *)
Definition initialize_url : string := "https://api.paystack.co/transaction/initialize".

Definition initialize_headers (secret_key : string) : headers :=
  [("Authorization", "Bearer " ++ secret_key); ("Content-Type", "application/json")].

(** [response_data['data']['authorization_url']] *)
Definition authorization_url (r : json) : result json :=
  data <~ getitem r "data" ;;
  getitem data "authorization_url".

(** What the [except] clause of [checkout] does with an exception leaving the
    [try] block in world [w]: handle a [RequestException], let any other
    propagate. *)
Definition initialization_failed (e : exn) (w : world) : result response * world :=
  if is_RequestException e then
    (Ok home,
     World (session w)
       (effects w ++
        [WebhookLog [Lit "Paystack API initialization error: "; Exc e] true;
         Flash [Lit "Could not connect to payment gateway."]]))
  else (Raise e, w).

(** [field] is an object whose [variable_name] is ["credits_to_add"]. *)
Definition named_credits (field : json) : bool :=
  match field with
  | JDict items =>
      match lookup_item "variable_name" items with
      | Some v => eq_str v "credits_to_add"
      | None => false
      end
  | _ => false
  end.

(** [field] is an object with another name, or none. *)
Definition other_field (field : json) : bool :=
  match field with
  | JDict _ => negb (named_credits field)
  | _ => false
  end.

(** An exception outside the HTTP client's family, as every step of the
    response processing raises. *)
Definition processing_error (e : exn) : Prop := is_RequestException e = false.

(** ** The outcomes of [checkout] *)

Definition store_redirect : response := Redirect (UrlFor "store.store_page").

(** What follows the outbound call [call] of an initiation, by the gateway's
    answer. *)
Inductive gateway_outcome (s : gmap string string) (call : event) (reference : string)
  : http_result -> result response * world -> Prop :=
| transport_error :
    gateway_outcome s call reference ConnectionFailed
      (Ok home,
       World s [call;
                WebhookLog [Lit "Paystack API initialization error: ";
                            Exc RequestException] true;
                Flash [Lit "Could not connect to payment gateway."]])
| body_not_json :
    gateway_outcome s call reference (Response None)
      (Ok home,
       World s [call;
                WebhookLog [Lit "Paystack API initialization error: ";
                            Exc JSONDecodeError] true;
                Flash [Lit "Could not connect to payment gateway."]])
| body_not_object r e :
    get r "status" JNull = Raise e ->
    gateway_outcome s call reference (Response (Some r)) (Raise e, World s [call])
| initiation_declined r msg :
    status_flag r = false ->
    get r "message" (JStr "Unknown API Error") = Ok msg ->
    gateway_outcome s call reference (Response (Some r))
      (Ok home, World s [call; Flash [Lit "Payment initiation failed: "; Val msg]])
| initiation_accepted r u :
    status_flag r = true ->
    authorization_url r = Ok u ->
    gateway_outcome s call reference (Response (Some r))
      (Ok (Redirect (External u)),
       World (<["paystack_reference" := reference]> s)
             [call; SessionSet "paystack_reference" reference])
| initiation_accepted_malformed r e :
    status_flag r = true ->
    authorization_url r = Raise e ->
    gateway_outcome s call reference (Response (Some r))
      (Raise e,
       World (<["paystack_reference" := reference]> s)
             [call; SessionSet "paystack_reference" reference]).

(** Every way an initiation can end, with the session and the effects it
    leaves behind. *)
Inductive checkout_outcome (E : env) (pid : Z) (s : gmap string string)
  : result response * world -> Prop :=
| unknown_product :
    next_product pid = Raise StopIteration ->
    checkout_outcome E pid s
      (Ok store_redirect, World s [Flash [Lit "Invalid product selected."]])
| bad_price p e :
    next_product pid = Ok p ->
    amount_in_subunit p = Raise e ->
    checkout_outcome E pid s (Raise e, World s [])
| missing_email p n :
    next_product pid = Ok p ->
    amount_in_subunit p = Ok n ->
    nonempty (s !! "email") = None ->
    checkout_outcome E pid s
      (Ok home, World s [Flash [Lit "User session error: Email not found."]])
| missing_credential p n user_email :
    next_product pid = Ok p ->
    amount_in_subunit p = Ok n ->
    nonempty (s !! "email") = Some user_email ->
    nonempty (config E !! "PAYSTACK_SECRET_KEY") = None ->
    checkout_outcome E pid s
      (Ok home,
       World s [WebhookLog [Lit "PAYSTACK_SECRET_KEY not configured."] true;
                Flash [Lit "Payment gateway not configured correctly."]])
| gateway_called p n user_email secret_key out :
    next_product pid = Ok p ->
    amount_in_subunit p = Ok n ->
    nonempty (s !! "email") = Some user_email ->
    nonempty (config E !! "PAYSTACK_SECRET_KEY") = Some secret_key ->
    gateway_outcome s
      (HttpPost initialize_url (initialize_headers secret_key)
         (initialize_payload E user_email n
            (generate_paystack_reference E user_email pid) p))
      (generate_paystack_reference E user_email pid)
      (gateway_post E initialize_url (initialize_headers secret_key)
         (initialize_payload E user_email n
            (generate_paystack_reference E user_email pid) p))
      out ->
    checkout_outcome E pid s out.

(** Three ways a response that announces a paid transaction can still be
    unusable: no data object, no customer e-mail, or a credit field whose
    value [int()] rejects. *)
Inductive unusable_response (r : json) : Prop :=
| missing_data :
    status_flag r = true ->
    getitem r "data" = Raise KeyError ->
    unusable_response r
| missing_customer_email e :
    status_flag r = true ->
    transaction_status r = Some (JStr "success") ->
    customer_email r = Raise e ->
    unusable_response r
| unparseable_credits pre entry post value e :
    status_flag r = true ->
    transaction_status r = Some (JStr "success") ->
    custom_fields r = Ok (JList (pre ++ entry :: post)) ->
    forallb other_field pre = true ->
    named_credits entry = true ->
    getitem entry "value" = Ok value ->
    py_int value = Raise e ->
    unusable_response r.

(** [round(x)] on a float: the nearest integer, ties to the even one. *)
Definition py_round (x : spec_float) : result Z :=
  match x with
  | S754_zero _ => Ok 0
  | S754_infinity _ => Raise OverflowError
  | S754_nan => Raise ValueError
  | S754_finite s m e =>
      let a :=
        match e with
        | Z0 => Zpos m
        | Zpos k => Z.shiftl (Zpos m) (Zpos k)
        | Zneg k =>
            let q := Z.shiftr (Zpos m) (Zpos k) in
            let rest := Zpos m - Z.shiftl q (Zpos k) in
            let half := Z.shiftl 1 (Zpos k - 1) in
            if rest <? half then q
            else if half <? rest then q + 1
            else if Z.even q then q else q + 1
        end in
      Ok (if s then - a else a)
  end.

(** The fallback formula as the description writes it, over the rationals:
    [floor(paid_subunit / 100 * 100)]. *)
Definition exact_fallback (paid_subunit : Z) : Z :=
  Qfloor (inject_Z paid_subunit / inject_Z 100 * inject_Z 100)%Q.

(** How far the fallback falls short of the paid amount. *)
Definition fallback_gap (paid_subunit : Z) : option Z :=
  match fallback_credits (JDict [("amount", JInt paid_subunit)]) with
  | Ok n => Some (paid_subunit - n)
  | Raise _ => None
  end.

(** Whether the gap is 0 or 1 for every paid amount below [bound]. *)
Definition gap_within_one_below (bound : N) : bool :=
  snd (N.iter bound
         (fun st : Z * bool =>
            (fst st + 1,
             snd st && match fallback_gap (fst st) with
                       | Some 0 | Some 1 => true
                       | _ => false
                       end))
         (0, true)).

(** ** Sample requests *)

Definition sample_env (args : gmap string string) (initialize verify : http_result) : env :=
  Env args {["PAYSTACK_SECRET_KEY" := "sk_test_51"]}
      "https://panel.example/success" "9f1c2e7a4b6d4c0e8a1b2c3d4e5f6a7b"
      (fun _ _ _ => initialize) (fun _ _ => verify).

Definition sample_session : gmap string string :=
  {["email" := "alice@example.com"; "paystack_reference" := "LUNES-ALIC-1-9F1C2E7A4B"]}.

Definition credits_field (value : json) : json :=
  JDict [("display_name", JStr "Credits");
         ("variable_name", JStr "credits_to_add");
         ("value", value)].

(** A verify response: overall flag, transaction status, paid amount, the
    custom fields and the customer object. *)
Definition verify_response (flag : bool) (status : string) (amount : Z)
    (fields : list json) (customer : list (string * json)) : json :=
  JDict [("status", JBool flag);
         ("message", JStr "Verification successful");
         ("data", JDict [("status", JStr status);
                         ("reference", JStr "LUNES-ALIC-1-9F1C2E7A4B");
                         ("amount", JInt amount);
                         ("gateway_response", JStr "Declined");
                         ("metadata", JDict [("custom_fields", JList fields)]);
                         ("customer", JDict customer)])].

(** A transaction the purchaser walked away from, and one that was paid. *)
Definition abandoned_response : json :=
  verify_response true "abandoned" 500 [credits_field (JInt 500)]
    [("email", JStr "alice@example.com")].

Definition paid_response : json :=
  verify_response true "success" 500
    [JDict [("display_name", JStr "Plan"); ("variable_name", JStr "plan"); ("value", JStr "small")];
     credits_field (JInt 500)]
    [("email", JStr "alice@example.com")].

(** A paid transaction whose credit field holds text. *)
Definition unparseable_response : json :=
  verify_response true "success" 500 [credits_field (JStr "five hundred")]
    [("email", JStr "alice@example.com")].

(** The gateway's answer to an accepted initialize call. *)
Definition accepted_response : json :=
  JDict [("status", JBool true);
         ("message", JStr "Authorization URL created");
         ("data", JDict [("authorization_url", JStr "https://checkout.paystack.com/0peioxfhpn");
                         ("access_code", JStr "0peioxfhpn");
                         ("reference", JStr "LUNES-ALIC-2-9F1C2E7A4B")])].

(** A response with a true flag and no data object. *)
Definition accepted_without_data : json :=
  JDict [("status", JBool true); ("message", JStr "Authorization URL created")].

(** A paid transaction with no credit field in its metadata. *)
Definition paid_without_metadata (amount : Z) : json :=
  verify_response true "success" amount [] [("email", JStr "alice@example.com")].

(** ** Further samples and observations *)

Definition is_object (v : json) : bool :=
  match v with
  | JDict _ => true
  | _ => false
  end.

(** What [success] leaves behind when the response processing raises [e]. *)
Definition processing_failure (E : env) (s : gmap string string) (reference : string)
    (e : exn) : result response * world :=
  (Ok home,
   World (delete "paystack_reference" s)
     [SessionPop "paystack_reference";
      HttpGet (verify_url reference) (verify_headers E);
      WebhookLog [Lit "Verification processing error: "; Exc e] true;
      Flash [Lit "An internal error occurred during payment verification."]]).

(** The gateway's answer for a reference it does not know. *)
Definition unknown_reference_response : json :=
  JDict [("status", JBool false); ("message", JStr "Transaction reference not found")].

(** A paid transaction initialized without metadata, as the gateway reports
    it: the metadata is an empty text. *)
Definition paid_with_text_metadata : json :=
  JDict [("status", JBool true);
         ("message", JStr "Verification successful");
         ("data", JDict [("status", JStr "success");
                         ("amount", JInt 500);
                         ("metadata", JStr "");
                         ("customer", JDict [("email", JStr "alice@example.com")])])].

Definition query_env (verify : http_result) : env :=
  sample_env {["reference" := "LUNES-BOB@-3-0A1B2C3D4E"]} ConnectionFailed verify.

(** The initialize request of a purchase and the gateway's answer to it. *)
Definition initialize_request (E : env) (pid : Z) (p : product) (n : Z)
    (user_email secret_key : string) : event :=
  HttpPost initialize_url (initialize_headers secret_key)
    (initialize_payload E user_email n (generate_paystack_reference E user_email pid) p).

Definition initialize_answer (E : env) (pid : Z) (p : product) (n : Z)
    (user_email secret_key : string) : http_result :=
  gateway_post E initialize_url (initialize_headers secret_key)
    (initialize_payload E user_email n (generate_paystack_reference E user_email pid) p).

(** The gateway declining an initialize call. *)
Definition declined_response : json :=
  JDict [("status", JBool false); ("message", JStr "Invalid key")].

(** [payload['metadata']['custom_fields']] of an initialize request. *)
Definition announced_fields (payload : json) : result json :=
  metadata <~ getitem payload "metadata" ;;
  getitem metadata "custom_fields".

(** [x] is not a number, or carries the sign [negative]. *)
Definition has_sign (negative : bool) (x : spec_float) : Prop :=
  match x with
  | S754_nan => True
  | S754_zero s | S754_infinity s | S754_finite s _ _ => s = negative
  end.

(** A paid transaction whose credit field holds the number as text. *)
Definition paid_with_text_value : json :=
  verify_response true "success" 500 [credits_field (JStr "1_200")]
    [("email", JStr "alice@example.com")].

(** A paid transaction whose credit field holds zero. *)
Definition paid_with_zero_value : json :=
  verify_response true "success" 2000 [credits_field (JInt 0)]
    [("email", JStr "alice@example.com")].

(** A paid transaction without credit field whose amount came as text. *)
Definition paid_with_text_amount : json :=
  JDict [("status", JBool true);
         ("data", JDict [("status", JStr "success");
                         ("amount", JStr "500");
                         ("customer", JDict [("email", JStr "alice@example.com")])])].

(** Every character of [s] passes the test [ok]. *)
Fixpoint all_chars (ok : ascii -> bool) (s : string) : bool :=
  match s with
  | EmptyString => true
  | String c s' => ok c && all_chars ok s'
  end.

Definition ascii_only (s : string) : bool :=
  all_chars (fun c => (nat_of_ascii c <? 128)%nat) s.

(** The characters of [uuid4().hex]: digits and a-f. *)
Definition lower_hex_char (c : ascii) : bool :=
  let n := nat_of_ascii c in
  ((48 <=? n)%nat && (n <=? 57)%nat) || ((97 <=? n)%nat && (n <=? 102)%nat).

Definition lower_hex (s : string) : bool := all_chars lower_hex_char s.

(** The inverse of [upper_char] on lower-case text. *)
Definition lower_char (c : ascii) : ascii :=
  let n := nat_of_ascii c in
  if ((65 <=? n)%nat && (n <=? 90)%nat)%bool then ascii_of_nat (n + 32) else c.

Fixpoint lower (s : string) : string :=
  match s with
  | EmptyString => EmptyString
  | String c s' => String (lower_char c) (lower s')
  end.

(** Paid transactions whose custom fields hold a field named
    [credits_to_add] worth 500: behind another such field worth zero, behind
    an entry that is no object, and without a customer e-mail. *)
Definition shadowed_credits_response : json :=
  verify_response true "success" 2000
    [credits_field (JInt 0); credits_field (JInt 500)]
    [("email", JStr "alice@example.com")].

Definition text_before_credits_response : json :=
  verify_response true "success" 2000
    [JStr "note"; credits_field (JInt 500)]
    [("email", JStr "alice@example.com")].

Definition no_customer_email_response : json :=
  verify_response true "success" 2000 [credits_field (JInt 500)] [].

(** A second request context, with another UUID drawn. *)
Definition other_uuid_env : env :=
  Env ∅ {["PAYSTACK_SECRET_KEY" := "sk_test_51"]}
      "https://panel.example/success" "0a1b2c3d4e5f60718293a4b5c6d7e8f9"
      (fun _ _ _ => ConnectionFailed) (fun _ _ => ConnectionFailed).

(** ** Stepping through the handlers *)

Section Handlers.

Variable E : env.

Lemma success_call_cases url hdrs reference w :
  let w1 := World (session w) (effects w ++ [HttpGet url hdrs]) in
  success_call E url hdrs reference w =
  match gateway_get E url hdrs with
  | ConnectionFailed => (Raise RequestException, w1)
  | Response None => (Raise JSONDecodeError, w1)
  | Response (Some r) =>
      match verified r with
      | Raise e => (Raise e, w1)
      | Ok true =>
          match credit_order r with
          | Raise e => (Raise e, w1)
          | Ok (user_email, n) =>
              (Ok home,
               World (session w)
                 (effects w ++ [HttpGet url hdrs] ++
                   [AddCredits user_email n;
                    WebhookLog [Lit "**PAYSTACK PAYMENT**: User: "; Val user_email;
                                Lit " bought "; Num n; Lit " credits (Ref: ";
                                Str reference; Lit ")."] true;
                    Flash [Lit "Success! Your account has been credited."]]))
          end
      | Ok false =>
          match failure_status r with
          | Raise e => (Raise e, w1)
          | Ok status_msg =>
              (Ok home,
               World (session w)
                 (effects w ++ [HttpGet url hdrs] ++
                   [Flash [Lit "Payment failed: "; Val status_msg;
                           Lit ". Please try again or contact support with reference: ";
                           Str reference]]))
          end
      end
  end.
Proof.
  unfold success_call, requests_get, response_json, credit_order, failure_status.
  unfold bind, emit, lift, raise, ret, add_credits, webhook_log, flash, emit.
  simpl.
  destruct (gateway_get E url hdrs) as [|[r|]]; simpl; try reflexivity.
  destruct (verified r) as [[|]|e]; simpl; try reflexivity.
  - destruct (getitem r "data") as [d|e]; simpl; try reflexivity.
    destruct (resolve_credits d) as [n|e]; simpl; try reflexivity.
    destruct (getitem d "customer") as [c|e]; simpl; try reflexivity.
    destruct (getitem c "email") as [em|e]; simpl; try reflexivity.
    repeat rewrite <- app_assoc. reflexivity.
  - destruct (getitem r "data") as [d|e]; simpl; try reflexivity.
    destruct (get_or d "gateway_response" (getitem d "status")) as [m|e]; simpl;
      try reflexivity.
    repeat rewrite <- app_assoc. reflexivity.
Qed.

Lemma success_without_reference s :
  found_reference E s = None ->
  run (success E) s =
  (Ok home,
   World s [Flash [Lit "Payment verification failed: No transaction reference found."]]).
Proof.
  unfold found_reference, run, success, bind, session_get. simpl.
  intros ->. reflexivity.
Qed.

Lemma success_with_reference s reference :
  found_reference E s = Some reference ->
  run (success E) s =
  (Ok home,
   World (delete "paystack_reference" s)
     ([SessionPop "paystack_reference";
       HttpGet (verify_url reference) (verify_headers E)] ++
      verification_effects reference
        (gateway_get E (verify_url reference) (verify_headers E)))).
Proof.
  unfold found_reference, run, success. unfold bind at 1. unfold session_get. simpl.
  intros ->. unfold bind at 1. unfold session_pop. simpl.
  unfold try_except. rewrite success_call_cases. simpl.
  fold (verify_url reference). fold (verify_headers E).
  unfold verification_effects.
  destruct (gateway_get E (verify_url reference) (verify_headers E)) as [|[r|]];
    try reflexivity.
  destruct (verified r) as [[|]|e].
  - destruct (credit_order r) as [[em n]|e]; [reflexivity|].
    unfold verification_error_effects. destruct (is_RequestException e); reflexivity.
  - destruct (failure_status r) as [m|e]; [reflexivity|].
    unfold verification_error_effects. destruct (is_RequestException e); reflexivity.
  - unfold verification_error_effects. destruct (is_RequestException e); reflexivity.
Qed.

Lemma checkout_unknown_product pid s :
  next_product pid = Raise StopIteration ->
  run (checkout E pid) s =
  (Ok (Redirect (UrlFor "store.store_page")),
   World s [Flash [Lit "Invalid product selected."]]).
Proof.
  unfold run, checkout. intros ->. reflexivity.
Qed.

Lemma checkout_without_email pid p n s :
  next_product pid = Ok p ->
  amount_in_subunit p = Ok n ->
  nonempty (s !! "email") = None ->
  run (checkout E pid) s =
  (Ok home, World s [Flash [Lit "User session error: Email not found."]]).
Proof.
  unfold run, checkout. intros -> Hn He.
  unfold bind at 1. unfold lift. rewrite Hn.
  unfold bind at 1. unfold session_get. simpl. rewrite He. reflexivity.
Qed.

Lemma checkout_without_credential pid p n user_email s :
  next_product pid = Ok p ->
  amount_in_subunit p = Ok n ->
  nonempty (s !! "email") = Some user_email ->
  nonempty (config E !! "PAYSTACK_SECRET_KEY") = None ->
  run (checkout E pid) s =
  (Ok home,
   World s [WebhookLog [Lit "PAYSTACK_SECRET_KEY not configured."] true;
            Flash [Lit "Payment gateway not configured correctly."]]).
Proof.
  unfold run, checkout. intros -> Hn He Hk.
  unfold bind at 1. unfold lift. rewrite Hn.
  unfold bind at 1. unfold session_get. simpl. rewrite He, Hk. reflexivity.
Qed.

Lemma checkout_call_cases url hdrs payload reference w :
  let w1 := World (session w) (effects w ++ [HttpPost url hdrs payload]) in
  let w2 := World (<["paystack_reference" := reference]> (session w))
                  (effects w ++ [HttpPost url hdrs payload;
                                 SessionSet "paystack_reference" reference]) in
  checkout_call E url hdrs payload reference w =
  match gateway_post E url hdrs payload with
  | ConnectionFailed => (Raise RequestException, w1)
  | Response None => (Raise JSONDecodeError, w1)
  | Response (Some r) =>
      match get r "status" JNull with
      | Raise e => (Raise e, w1)
      | Ok status =>
          if truthy status then
            match authorization_url r with
            | Ok u => (Ok (Redirect (External u)), w2)
            | Raise e => (Raise e, w2)
            end
          else
            match get r "message" (JStr "Unknown API Error") with
            | Ok msg =>
                (Ok home,
                 World (session w)
                   (effects w ++ [HttpPost url hdrs payload;
                                  Flash [Lit "Payment initiation failed: "; Val msg]]))
            | Raise e => (Raise e, w1)
            end
      end
  end.
Proof.
  unfold checkout_call, requests_post, response_json, authorization_url.
  unfold bind, emit, lift, raise, ret, flash, session_set, emit.
  simpl.
  destruct (gateway_post E url hdrs payload) as [|[r|]]; simpl; try reflexivity.
  destruct (get r "status" JNull) as [st|e]; simpl; try reflexivity.
  destruct (truthy st); simpl.
  - destruct (getitem r "data") as [d|e]; simpl;
      [destruct (getitem d "authorization_url") as [u|e]; simpl|];
      repeat rewrite <- app_assoc; reflexivity.
  - destruct (get r "message" (JStr "Unknown API Error")) as [m|e]; simpl;
      repeat rewrite <- app_assoc; reflexivity.
Qed.

Lemma checkout_ready pid p n user_email secret_key s :
  next_product pid = Ok p ->
  amount_in_subunit p = Ok n ->
  nonempty (s !! "email") = Some user_email ->
  nonempty (config E !! "PAYSTACK_SECRET_KEY") = Some secret_key ->
  let reference := generate_paystack_reference E user_email pid in
  run (checkout E pid) s =
  match checkout_call E initialize_url (initialize_headers secret_key)
          (initialize_payload E user_email n reference p) reference (World s []) with
  | (Ok a, w) => (Ok a, w)
  | (Raise e, w) => initialization_failed e w
  end.
Proof.
  unfold run, checkout. intros -> Hn He Hk.
  unfold bind at 1. unfold lift. rewrite Hn.
  unfold bind at 1. unfold session_get. simpl. rewrite He, Hk.
  unfold try_except, initialize_url, initialize_headers, initialization_failed.
  match goal with |- context [checkout_call ?a ?b ?c ?d ?e ?f] =>
    destruct (checkout_call a b c d e f) as [[a0|e0] w0] end; [reflexivity|].
  destruct (is_RequestException e0); [|reflexivity].
  unfold bind, webhook_log, flash, emit, ret. simpl.
  rewrite <- app_assoc. reflexivity.
Qed.

End Handlers.

(** ** Facts about the pure steps *)

Lemma eq_str_true v s : eq_str v s = true -> v = JStr s.
Proof.
  destruct v; simpl; try discriminate.
  intros H. apply String.eqb_eq in H. congruence.
Qed.

Lemma verified_true_iff r :
  verified r = Ok true <->
  status_flag r = true /\ transaction_status r = Some (JStr "success").
Proof.
  unfold verified, status_flag, transaction_status, get, getitem, rbind.
  destruct r as [| | | | | |items]; try (split; [discriminate | intros [? ?]; discriminate]).
  destruct (lookup_item "status" items) as [flag|]; simpl.
  2: { split; [discriminate | intros [? ?]; discriminate]. }
  destruct (truthy flag).
  2: { split; [discriminate | intros [? ?]; discriminate]. }
  destruct (lookup_item "data" items) as [d|].
  2: { split; [discriminate | intros [? ?]; discriminate]. }
  destruct d as [| | | | | |data]; try (split; [discriminate | intros [? ?]; discriminate]).
  destruct (lookup_item "status" data) as [st|].
  2: { split; [discriminate | intros [? ?]; discriminate]. }
  split.
  - intros H. injection H as H. apply eq_str_true in H. subst. split; reflexivity.
  - intros [_ H]. injection H as ->. reflexivity.
Qed.

Lemma get_raises o k d e : get o k d = Raise e -> processing_error e.
Proof. destruct o; simpl; intros H; inversion H; reflexivity. Qed.

Lemma getitem_raises o k e : getitem o k = Raise e -> processing_error e.
Proof.
  destruct o; simpl; try (intros H; inversion H; reflexivity).
  destruct (lookup_item k items); intros H; inversion H; reflexivity.
Qed.

Lemma get_or_raises o k d e :
  get_or o k d = Raise e -> (forall e', d = Raise e' -> processing_error e') ->
  processing_error e.
Proof.
  destruct o; simpl; try (intros H _; inversion H; reflexivity).
  destruct d as [v|e']; intros H Hd; inversion H; subst. apply Hd; reflexivity.
Qed.

Lemma iter_raises o e : iter o = Raise e -> processing_error e.
Proof. destruct o; simpl; intros H; inversion H; reflexivity. Qed.

Lemma int_of_float_raises x e : int_of_float x = Raise e -> processing_error e.
Proof. destruct x; simpl; intros H; inversion H; reflexivity. Qed.

Lemma int_of_str_raises s e : int_of_str s = Raise e -> processing_error e.
Proof.
  unfold int_of_str.
  match goal with |- context [match ?b with Some _ => _ | None => _ end = _] =>
    destruct b end; intros H; inversion H; reflexivity.
Qed.

Lemma py_int_raises v e : py_int v = Raise e -> processing_error e.
Proof.
  destruct v; simpl; try (intros H; inversion H; reflexivity).
  - apply int_of_float_raises.
  - apply int_of_str_raises.
Qed.

Lemma int_truediv_raises a b e : int_truediv a b = Raise e -> processing_error e.
Proof.
  unfold int_truediv.
  match goal with |- context [match ?q with S754_infinity _ => _ | _ => _ end] =>
    destruct q end; intros H; inversion H; reflexivity.
Qed.

Lemma truediv_int_raises v d e : truediv_int v d = Raise e -> processing_error e.
Proof.
  destruct v; simpl; try (intros H; inversion H; reflexivity);
    apply int_truediv_raises.
Qed.

Lemma scan_custom_fields_raises fields e :
  scan_custom_fields fields = Raise e -> processing_error e.
Proof.
  induction fields as [|field rest IH]; simpl; [discriminate|].
  destruct (get field "variable_name" JNull) as [nm|e0] eqn:Hg; simpl.
  - destruct (eq_str nm "credits_to_add"); [|exact IH].
    destruct (getitem field "value") as [v|e1] eqn:Hv; simpl.
    + apply py_int_raises.
    + intros H; inversion H; subst. eapply getitem_raises; eassumption.
  - intros H; inversion H; subst. eapply get_raises; eassumption.
Qed.

Lemma fallback_credits_raises d e : fallback_credits d = Raise e -> processing_error e.
Proof.
  unfold fallback_credits.
  destruct (getitem d "amount") as [a|e0] eqn:Ha; simpl.
  - destruct (truediv_int a 100) as [x|e1] eqn:Hx; simpl.
    + apply int_of_float_raises.
    + intros H; inversion H; subst. eapply truediv_int_raises; eassumption.
  - intros H; inversion H; subst. eapply getitem_raises; eassumption.
Qed.

Lemma resolve_credits_raises d e : resolve_credits d = Raise e -> processing_error e.
Proof.
  unfold resolve_credits.
  destruct (get d "metadata" (JDict [])) as [md|e0] eqn:H1; simpl;
    [|intros H; inversion H; subst; eapply get_raises; eassumption].
  destruct (get md "custom_fields" (JList [])) as [cf|e0] eqn:H2; simpl;
    [|intros H; inversion H; subst; eapply get_raises; eassumption].
  destruct (iter cf) as [fs|e0] eqn:H3; simpl;
    [|intros H; inversion H; subst; eapply iter_raises; eassumption].
  destruct (scan_custom_fields fs) as [n|e0] eqn:H4; simpl;
    [|intros H; inversion H; subst; eapply scan_custom_fields_raises; eassumption].
  destruct (n =? 0); [apply fallback_credits_raises | discriminate].
Qed.

Lemma verified_raises r e : verified r = Raise e -> processing_error e.
Proof.
  unfold verified.
  destruct (get r "status" JNull) as [st|e0] eqn:H1; simpl;
    [|intros H; inversion H; subst; eapply get_raises; eassumption].
  destruct (truthy st); [|discriminate].
  destruct (getitem r "data") as [d|e0] eqn:H2; simpl;
    [|intros H; inversion H; subst; eapply getitem_raises; eassumption].
  destruct (getitem d "status") as [ts|e0] eqn:H3; simpl;
    [discriminate|intros H; inversion H; subst; eapply getitem_raises; eassumption].
Qed.

Lemma credit_order_raises r e : credit_order r = Raise e -> processing_error e.
Proof.
  unfold credit_order.
  destruct (getitem r "data") as [d|e0] eqn:H1; simpl;
    [|intros H; inversion H; subst; eapply getitem_raises; eassumption].
  destruct (resolve_credits d) as [n|e0] eqn:H2; simpl;
    [|intros H; inversion H; subst; eapply resolve_credits_raises; eassumption].
  destruct (getitem d "customer") as [c|e0] eqn:H3; simpl;
    [|intros H; inversion H; subst; eapply getitem_raises; eassumption].
  destruct (getitem c "email") as [em|e0] eqn:H4; simpl;
    [discriminate|intros H; inversion H; subst; eapply getitem_raises; eassumption].
Qed.

Lemma authorization_url_raises r e : authorization_url r = Raise e -> processing_error e.
Proof.
  unfold authorization_url.
  destruct (getitem r "data") as [d|e0] eqn:H1; simpl;
    [|intros H; inversion H; subst; eapply getitem_raises; eassumption].
  apply getitem_raises.
Qed.

(** The scan stops at the first field named ["credits_to_add"]. *)
Lemma scan_custom_fields_first pre entry post :
  forallb other_field pre = true ->
  named_credits entry = true ->
  scan_custom_fields (pre ++ entry :: post) =
  (value <~ getitem entry "value" ;; py_int value).
Proof.
  intros Hpre Hentry.
  induction pre as [|f pre IH]; simpl.
  - destruct entry as [| | | | | |items]; try discriminate. simpl in *.
    destruct (lookup_item "variable_name" items) as [nm|]; [|discriminate].
    rewrite Hentry. reflexivity.
  - simpl in Hpre. apply andb_prop in Hpre as [Hf Hpre].
    destruct f as [| | | | | |items]; try discriminate. simpl in *.
    destruct (lookup_item "variable_name" items) as [nm|]; simpl in *.
    + apply negb_true_iff in Hf. rewrite Hf. auto.
    + auto.
Qed.

Lemma next_product_raises pid e : next_product pid = Raise e -> e = StopIteration.
Proof.
  unfold next_product.
  destruct (List.filter _ products); intros H; inversion H; reflexivity.
Qed.

Lemma get_status_flag r st :
  get r "status" JNull = Ok st -> status_flag r = truthy st.
Proof.
  destruct r; simpl; try discriminate.
  destruct (lookup_item "status" items); intros H; inversion H; reflexivity.
Qed.

Lemma checkout_sound E pid s : checkout_outcome E pid s (run (checkout E pid) s).
Proof.
  destruct (next_product pid) as [p|e] eqn:Hp.
  2: { pose proof (next_product_raises _ _ Hp); subst e.
       rewrite checkout_unknown_product by assumption. constructor. assumption. }
  destruct (amount_in_subunit p) as [n|e] eqn:Hn.
  2: { unfold run, checkout. rewrite Hp. unfold bind at 1. unfold lift. rewrite Hn.
       eapply bad_price; eassumption. }
  destruct (nonempty (s !! "email")) as [user_email|] eqn:He.
  2: { erewrite checkout_without_email by eassumption.
       eapply missing_email; eassumption. }
  destruct (nonempty (config E !! "PAYSTACK_SECRET_KEY")) as [secret_key|] eqn:Hk.
  2: { erewrite checkout_without_credential by eassumption.
       eapply missing_credential; eassumption. }
  erewrite checkout_ready by eassumption.
  eapply gateway_called; try eassumption.
  rewrite checkout_call_cases. simpl.
  destruct (gateway_post _ _ _ _) as [|[r|]].
  - apply transport_error.
  - destruct (get r "status" JNull) as [st|e] eqn:Hst.
    + pose proof (get_status_flag _ _ Hst) as Hflag.
      destruct (truthy st).
      * destruct (authorization_url r) as [u|e] eqn:Hu.
        -- apply initiation_accepted; assumption.
        -- unfold initialization_failed.
           rewrite (authorization_url_raises _ _ Hu).
           apply initiation_accepted_malformed; assumption.
      * destruct (get r "message" (JStr "Unknown API Error")) as [msg|e] eqn:Hm.
        -- apply initiation_declined; assumption.
        -- destruct r; simpl in Hst, Hm; discriminate.
    + unfold initialization_failed. rewrite (get_raises _ _ _ _ Hst).
      apply body_not_object; assumption.
  - apply body_not_json.
Qed.

(** ** Verification *)

Lemma credit_calls_verification_error e :
  credit_calls (verification_error_effects e) = [].
Proof. unfold verification_error_effects. destruct (is_RequestException e); reflexivity. Qed.

Lemma outbound_calls_verification_effects reference answer :
  outbound_calls (verification_effects reference answer) = [].
Proof.
  assert (Herr : forall e, outbound_calls (verification_error_effects e) = []).
  { intros e. unfold verification_error_effects.
    destruct (is_RequestException e); reflexivity. }
  unfold verification_effects.
  destruct answer as [|[r|]]; try apply Herr.
  destruct (verified r) as [[|]|e]; try apply Herr.
  - destruct (credit_order r) as [[em n]|e]; [reflexivity | apply Herr].
  - destruct (failure_status r) as [m|e]; [reflexivity | apply Herr].
Qed.

(** The credit calls of a verification, by the gateway's answer. *)
Lemma credit_calls_verification reference answer :
  credit_calls (verification_effects reference answer) =
  match answer with
  | Response (Some r) =>
      match verified r, credit_order r with
      | Ok true, Ok order => [order]
      | _, _ => []
      end
  | _ => []
  end.
Proof.
  unfold verification_effects.
  destruct answer as [|[r|]]; try apply credit_calls_verification_error.
  destruct (verified r) as [[|]|e]; try apply credit_calls_verification_error.
  - destruct (credit_order r) as [[em n]|e];
      [reflexivity | apply credit_calls_verification_error].
  - destruct (failure_status r) as [m|e];
      [reflexivity | apply credit_calls_verification_error].
Qed.

Lemma success_credit_calls E s :
  credit_calls (performed (run (success E) s)) =
  match found_reference E s with
  | None => []
  | Some reference =>
      credit_calls (verification_effects reference
        (gateway_get E (verify_url reference) (verify_headers E)))
  end.
Proof.
  destruct (found_reference E s) as [reference|] eqn:Href.
  - rewrite (success_with_reference E s reference Href). reflexivity.
  - rewrite (success_without_reference E s Href). reflexivity.
Qed.

(** C1. A verification whose gateway response does not carry the transaction
    status ["success"] under a true overall flag (the flag is false, the data
    object or its status is missing, or the status is another value) makes no
    call to [add_credits]: no account is credited. *)
Theorem success_credits_only_successful_transactions E s :
  (forall url hdrs r,
     gateway_get E url hdrs = Response (Some r) ->
     status_flag r = false \/ transaction_status r <> Some (JStr "success")) ->
  credit_calls (performed (run (success E) s)) = [].
Proof.
  intros Hnot. rewrite success_credit_calls.
  destruct (found_reference E s) as [reference|]; [|reflexivity].
  rewrite credit_calls_verification.
  destruct (gateway_get E (verify_url reference) (verify_headers E))
    as [|[r|]] eqn:Hanswer; try reflexivity.
  destruct (verified r) as [[|]|e] eqn:Hv; try reflexivity.
  apply verified_true_iff in Hv as [Hflag Hstatus].
  destruct (Hnot _ _ _ Hanswer) as [H|H]; congruence.
Qed.

Lemma success_credits_only_successful_transactions_witness :
  let E := sample_env ∅ ConnectionFailed (Response (Some abandoned_response)) in
  (forall url hdrs r,
     gateway_get E url hdrs = Response (Some r) ->
     status_flag r = false \/ transaction_status r <> Some (JStr "success")) /\
  credit_calls (performed (run (success E) sample_session)) = [].
Proof.
  intros E.
  assert (H : forall url hdrs r,
             gateway_get E url hdrs = Response (Some r) ->
             status_flag r = false \/ transaction_status r <> Some (JStr "success")).
  { intros url hdrs r Hr. simpl in Hr. injection Hr as <-. right. discriminate. }
  split; [exact H|].
  exact (success_credits_only_successful_transactions E sample_session H).
Defined.

Lemma credit_order_from_metadata r pre entry post v email :
  custom_fields r = Ok (JList (pre ++ entry :: post)) ->
  forallb other_field pre = true ->
  named_credits entry = true ->
  getitem entry "value" = Ok (JInt v) ->
  v <> 0 ->
  customer_email r = Ok email ->
  credit_order r = Ok (email, v).
Proof.
  unfold custom_fields, customer_email, credit_order, resolve_credits.
  destruct (getitem r "data") as [d|e]; simpl; [|discriminate].
  destruct (get d "metadata" (JDict [])) as [md|e]; simpl; [|discriminate].
  intros -> Hpre Hentry Hvalue Hv. simpl.
  rewrite (scan_custom_fields_first pre entry post Hpre Hentry), Hvalue. simpl.
  apply Z.eqb_neq in Hv. rewrite Hv.
  destruct (getitem d "customer") as [c|e]; simpl; [|discriminate].
  intros ->. reflexivity.
Qed.

(** C2, as amended.  When the gateway reports overall success and
    transaction status ["success"], the customer e-mail is present, and the
    first custom field named ["credits_to_add"] (every entry before it being
    an object with another name) carries a nonzero integer, the account of
    the verified transaction is credited once, with exactly that integer,
    whatever the paid amount. *)
Theorem success_credits_metadata_value E s reference r pre entry post v email :
  found_reference E s = Some reference ->
  gateway_get E (verify_url reference) (verify_headers E) = Response (Some r) ->
  status_flag r = true ->
  transaction_status r = Some (JStr "success") ->
  custom_fields r = Ok (JList (pre ++ entry :: post)) ->
  forallb other_field pre = true ->
  named_credits entry = true ->
  getitem entry "value" = Ok (JInt v) ->
  v <> 0 ->
  customer_email r = Ok email ->
  credit_calls (performed (run (success E) s)) = [(email, v)].
Proof.
  intros Href Hanswer Hflag Hstatus Hfields Hpre Hentry Hvalue Hv Hemail.
  rewrite success_credit_calls, Href, credit_calls_verification, Hanswer.
  assert (Hok : verified r = Ok true) by (apply verified_true_iff; split; assumption).
  rewrite Hok.
  rewrite (credit_order_from_metadata r pre entry post v email); auto.
Qed.

Lemma success_credits_metadata_value_witness :
  let E := sample_env ∅ ConnectionFailed (Response (Some paid_response)) in
  credit_calls (performed (run (success E) sample_session))
  = [(JStr "alice@example.com", 500)].
Proof.
  intros E.
  apply (success_credits_metadata_value E sample_session "LUNES-ALIC-1-9F1C2E7A4B"
           paid_response
           [JDict [("display_name", JStr "Plan"); ("variable_name", JStr "plan");
                   ("value", JStr "small")]]
           (credits_field (JInt 500)) [] 500 (JStr "alice@example.com"));
    try reflexivity.
  discriminate.
Defined.

(** C2, as first stated, fails.  Each of these three paid transactions holds
    a custom field named ["credits_to_add"] worth 500.  Behind a field of the
    same name worth zero it is never read, and the credit is derived from the
    paid amount; behind an entry that is no object, or without a customer
    e-mail, the processing raises and nothing is credited. *)
Lemma success_credits_metadata_value_counterexample :
  let credited r :=
    credit_calls (performed (run
      (success (sample_env ∅ ConnectionFailed (Response (Some r)))) sample_session)) in
  (forall r,
     In r [shadowed_credits_response; text_before_credits_response;
           no_customer_email_response] ->
     status_flag r = true /\
     transaction_status r = Some (JStr "success") /\
     (exists fields,
        custom_fields r = Ok (JList fields) /\
        In (credits_field (JInt 500)) fields /\
        named_credits (credits_field (JInt 500)) = true /\
        getitem (credits_field (JInt 500)) "value" = Ok (JInt 500)) /\
     forall email, credited r <> [(email, 500)]) /\
  credited shadowed_credits_response = [(JStr "alice@example.com", 2000)] /\
  credited text_before_credits_response = [] /\
  credited no_customer_email_response = [].
Proof.
  intros credited.
  assert (H1 : credited shadowed_credits_response = [(JStr "alice@example.com", 2000)])
    by (vm_compute; reflexivity).
  assert (H2 : credited text_before_credits_response = []) by (vm_compute; reflexivity).
  assert (H3 : credited no_customer_email_response = []) by (vm_compute; reflexivity).
  split; [|auto].
  intros r [<-|[<-|[<-|[]]]].
  - repeat split; try reflexivity.
    + eexists. split; [reflexivity|]. repeat split; simpl; auto.
    + intros email. rewrite H1. discriminate.
  - repeat split; try reflexivity.
    + eexists. split; [reflexivity|]. repeat split; simpl; auto.
    + intros email. rewrite H2. discriminate.
  - repeat split; try reflexivity.
    + eexists. split; [reflexivity|]. repeat split; simpl; auto.
    + intros email. rewrite H3. discriminate.
Qed.

Lemma lookup_outside_email (s1 s2 : gmap string string) (k : string) :
  delete "email" s1 = delete "email" s2 -> k <> "email" -> s1 !! k = s2 !! k.
Proof.
  intros Heq Hk.
  rewrite <- (lookup_delete_ne s1 "email" k) by congruence.
  rewrite <- (lookup_delete_ne s2 "email" k) by congruence.
  rewrite Heq. reflexivity.
Qed.

(** C5. The account credited by a verification is the e-mail carried by the
    verified transaction, [data.customer.email] of the gateway's response; the
    session's e-mail plays no part: two invocations whose sessions differ only
    in their e-mail, facing the same gateway, credit the same accounts with
    the same amounts. *)
Theorem success_credits_transaction_email E s1 s2 :
  delete "email" s1 = delete "email" s2 ->
  credit_calls (performed (run (success E) s1))
  = credit_calls (performed (run (success E) s2)) /\
  forall email n,
    In (email, n) (credit_calls (performed (run (success E) s1))) ->
    exists reference r,
      found_reference E s1 = Some reference /\
      gateway_get E (verify_url reference) (verify_headers E) = Response (Some r) /\
      customer_email r = Ok email.
Proof.
  intros Heq.
  assert (Href : found_reference E s1 = found_reference E s2).
  { unfold found_reference.
    rewrite (lookup_outside_email s1 s2 "paystack_reference" Heq) by discriminate.
    reflexivity. }
  split.
  - rewrite !success_credit_calls, Href. reflexivity.
  - intros email n. rewrite success_credit_calls.
    destruct (found_reference E s1) as [reference|]; [|intros []].
    rewrite credit_calls_verification.
    destruct (gateway_get E (verify_url reference) (verify_headers E))
      as [|[r|]] eqn:Hanswer; try (intros []).
    destruct (verified r) as [[|]|e]; try (intros []).
    destruct (credit_order r) as [[em m]|e] eqn:Horder; [|intros []].
    intros [Hin|[]]. injection Hin as -> ->.
    exists reference, r. split; [reflexivity|]. split; [exact Hanswer|].
    revert Horder. unfold credit_order, customer_email.
    destruct (getitem r "data") as [d|e]; simpl; [|discriminate].
    destruct (resolve_credits d) as [k|e]; simpl; [|discriminate].
    destruct (getitem d "customer") as [c|e]; simpl; [|discriminate].
    destruct (getitem c "email") as [a|e]; simpl; [|discriminate].
    intros H. injection H as -> _. reflexivity.
Qed.

Lemma success_credits_transaction_email_witness :
  let E := sample_env ∅ ConnectionFailed (Response (Some paid_response)) in
  let s2 := <["email" := "mallory@example.com"]> sample_session in
  delete "email" sample_session = delete "email" s2 /\
  credit_calls (performed (run (success E) sample_session))
  = credit_calls (performed (run (success E) s2)).
Proof.
  intros E s2.
  assert (H : delete "email" sample_session = delete "email" s2).
  { unfold s2. rewrite delete_insert_eq. reflexivity. }
  split; [exact H|].
  exact (proj1 (success_credits_transaction_email E sample_session s2 H)).
Defined.

(** C6. Once a reference is found, [success] pops the pending reference
    from the session before anything else, then makes its one outbound call;
    whatever the gateway answers, the handler returns the home redirect and
    the session holds no pending reference. *)
Theorem success_clears_pending_reference E s reference :
  found_reference E s = Some reference ->
  fst (run (success E) s) = Ok home /\
  final_session (run (success E) s) !! "paystack_reference" = None /\
  exists rest,
    performed (run (success E) s)
    = SessionPop "paystack_reference"
        :: HttpGet (verify_url reference) (verify_headers E) :: rest /\
    outbound_calls rest = [].
Proof.
  intros Href. rewrite (success_with_reference E s reference Href).
  unfold final_session, performed. simpl.
  split; [reflexivity|]. split; [apply lookup_delete_eq|].
  eexists. split; [reflexivity|].
  apply outbound_calls_verification_effects.
Qed.

Lemma success_clears_pending_reference_witness :
  let E := sample_env ∅ ConnectionFailed ConnectionFailed in
  found_reference E sample_session = Some "LUNES-ALIC-1-9F1C2E7A4B" /\
  final_session (run (success E) sample_session) !! "paystack_reference" = None.
Proof.
  intros E.
  assert (H : found_reference E sample_session = Some "LUNES-ALIC-1-9F1C2E7A4B")
    by reflexivity.
  split; [exact H|].
  exact (proj1 (proj2 (success_clears_pending_reference E sample_session _ H))).
Defined.

Lemma unusable_response_raises r :
  unusable_response r ->
  exists e, processing_error e /\
    (verified r = Raise e \/ (verified r = Ok true /\ credit_order r = Raise e)).
Proof.
  intros [Hflag Hdata | e Hflag Hstatus Hemail
          | pre entry post value e Hflag Hstatus Hfields Hpre Hentry Hvalue Hint].
  - exists KeyError. split; [reflexivity|]. left.
    unfold verified. destruct r as [| | | | | |items]; try discriminate.
    simpl in *. destruct (lookup_item "status" items) as [st|]; [|discriminate].
    simpl. rewrite Hflag.
    destruct (lookup_item "data" items); [discriminate | reflexivity].
  - assert (Hok : verified r = Ok true) by (apply verified_true_iff; split; assumption).
    destruct (credit_order r) as [[em n]|e'] eqn:Horder.
    + exfalso. revert Horder Hemail. unfold credit_order, customer_email.
      destruct (getitem r "data") as [d|e0]; simpl; [|discriminate].
      destruct (resolve_credits d) as [k|e0]; simpl; [|discriminate].
      destruct (getitem d "customer") as [c|e0]; simpl; [|discriminate].
      destruct (getitem c "email") as [a|e0]; simpl; discriminate.
    + exists e'. split; [eapply credit_order_raises; eassumption|]. right. auto.
  - assert (Hok : verified r = Ok true) by (apply verified_true_iff; split; assumption).
    exists e. split; [eapply py_int_raises; eassumption|]. right. split; [assumption|].
    revert Hfields. unfold custom_fields, credit_order, resolve_credits.
    destruct (getitem r "data") as [d|e0]; simpl; [|discriminate].
    destruct (get d "metadata" (JDict [])) as [md|e0]; simpl; [|discriminate].
    intros ->. simpl.
    rewrite (scan_custom_fields_first pre entry post Hpre Hentry), Hvalue. simpl.
    rewrite Hint. reflexivity.
Qed.

(** C10. When a response announcing a paid transaction lacks the data object
    or the customer e-mail, or carries a credit value that [int()] rejects,
    the exception is caught by the broad handler: the error is logged, the
    generic message is flashed, the handler redirects home and [add_credits]
    is not called. *)
Theorem success_processing_error_credits_nothing E s reference r :
  found_reference E s = Some reference ->
  gateway_get E (verify_url reference) (verify_headers E) = Response (Some r) ->
  unusable_response r ->
  exists e,
    processing_error e /\
    run (success E) s =
    (Ok home,
     World (delete "paystack_reference" s)
       [SessionPop "paystack_reference";
        HttpGet (verify_url reference) (verify_headers E);
        WebhookLog [Lit "Verification processing error: "; Exc e] true;
        Flash [Lit "An internal error occurred during payment verification."]]) /\
    credit_calls (performed (run (success E) s)) = [].
Proof.
  intros Href Hanswer Hbad.
  destruct (unusable_response_raises r Hbad) as (e & He & Hraise).
  exists e. split; [exact He|].
  rewrite (success_with_reference E s reference Href), Hanswer.
  assert (Heff : verification_effects reference (Response (Some r))
                 = verification_error_effects e).
  { unfold verification_effects.
    destruct Hraise as [-> | [-> ->]]; reflexivity. }
  rewrite Heff. unfold verification_error_effects, performed.
  unfold processing_error in He. rewrite He. simpl. split; reflexivity.
Qed.

Lemma success_processing_error_credits_nothing_witness :
  let E := sample_env ∅ ConnectionFailed (Response (Some unparseable_response)) in
  unusable_response unparseable_response /\
  credit_calls (performed (run (success E) sample_session)) = [].
Proof.
  intros E.
  assert (Hbad : unusable_response unparseable_response).
  { apply (unparseable_credits unparseable_response []
             (credits_field (JStr "five hundred")) [] (JStr "five hundred") ValueError);
      reflexivity. }
  split; [exact Hbad|].
  destruct (success_processing_error_credits_nothing E sample_session
              "LUNES-ALIC-1-9F1C2E7A4B" unparseable_response
              eq_refl eq_refl Hbad) as (e & _ & _ & Hnone).
  exact Hnone.
Defined.

(** ** Initiation *)

Lemma next_product_in pid p :
  next_product pid = Ok p -> In p products /\ id p = pid.
Proof.
  unfold next_product.
  destruct (List.filter (fun p => id p =? pid) products) as [|q rest] eqn:Hf;
    intros H; inversion H; subst.
  assert (Hin : In p (List.filter (fun p => id p =? pid) products))
    by (rewrite Hf; left; reflexivity).
  apply filter_In in Hin as [Hin Hid]. apply Z.eqb_eq in Hid. auto.
Qed.

Lemma next_product_unknown pid :
  ~ In pid (map id products) -> next_product pid = Raise StopIteration.
Proof.
  intros Hnot. destruct (next_product pid) as [p|e] eqn:Hp.
  - exfalso. apply Hnot. apply next_product_in in Hp as [Hin <-].
    apply in_map. exact Hin.
  - apply next_product_raises in Hp. subst. reflexivity.
Qed.

(** On the catalog the float product is an integer: truncating it and
    rounding it give the same amount. *)
Lemma catalog_amounts p :
  In p products ->
  exists n,
    float_mul (price p) (float_of_Z 100) = float_of_Z n /\
    py_round (float_mul (price p) (float_of_Z 100)) = Ok n /\
    amount_in_subunit p = Ok n.
Proof.
  intros [<-|[<-|[<-|[]]]]; [exists 500 | exists 1000 | exists 2000];
    vm_compute; repeat split; reflexivity.
Qed.

(** Every outbound call of an initiation carries the amount computed from
    the product found. *)
Lemma checkout_posts E pid s p n :
  next_product pid = Ok p ->
  amount_in_subunit p = Ok n ->
  forall url hdrs body,
    In (HttpPost url hdrs body) (performed (run (checkout E pid) s)) ->
    exists user_email,
      body = initialize_payload E user_email n
               (generate_paystack_reference E user_email pid) p.
Proof.
  intros Hp Hn url hdrs body.
  pose proof (checkout_sound E pid s) as Hsound.
  remember (run (checkout E pid) s) as out eqn:Hout. clear Hout.
  unfold performed.
  destruct Hsound as [Hu | p' e Hp' He | p' n' Hp' Hn' Hm | p' n' em Hp' Hn' Hm Hk
                      | p' n' em key out Hp' Hn' Hm Hk Hgw]; simpl.
  - intros [H|[]]; discriminate.
  - intros [].
  - intros [H|[]]; discriminate.
  - intros [H|[H|[]]]; discriminate.
  - assert (p' = p) by congruence. subst p'.
    assert (n' = n) by congruence. subst n'.
    intros Hin. exists em.
    remember (HttpPost _ _ _) as call eqn:Hcall in Hgw.
    assert (Hhead : In (HttpPost url hdrs body) (effects (snd out)) ->
                    HttpPost url hdrs body = call).
    { destruct Hgw; simpl; subst call; intros Hmem;
        repeat match goal with
               | H : _ \/ _ |- _ => destruct H
               | H : False |- _ => destruct H
               | H : _ = HttpPost _ _ _ |- _ => first [discriminate H | exact (eq_sym H)]
               end. }
    specialize (Hhead Hin). subst call. injection Hhead as _ _ ->. reflexivity.
Qed.

(** C4. For every product id of the catalog, a purchaser with a session
    e-mail and a configured credential makes the initiation send one request,
    the initialize POST, and the amount it carries is [round(price * 100)]:
    the float product is an integer, so [int(price * 100)] truncates
    nothing.  This holds whatever the gateway answers. *)
Theorem checkout_amount_is_rounded_price E pid p s user_email secret_key :
  next_product pid = Ok p ->
  nonempty (s !! "email") = Some user_email ->
  nonempty (config E !! "PAYSTACK_SECRET_KEY") = Some secret_key ->
  exists n,
    py_round (float_mul (price p) (float_of_Z 100)) = Ok n /\
    float_mul (price p) (float_of_Z 100) = float_of_Z n /\
    outbound_calls (performed (run (checkout E pid) s))
    = [HttpPost initialize_url (initialize_headers secret_key)
         (initialize_payload E user_email n
            (generate_paystack_reference E user_email pid) p)] /\
    getitem (initialize_payload E user_email n
               (generate_paystack_reference E user_email pid) p) "amount"
    = Ok (JInt n).
Proof.
  intros Hp Hm Hk.
  destruct (next_product_in pid p Hp) as [Hin _].
  destruct (catalog_amounts p Hin) as (n & Hexact & Hround & Hamount).
  exists n. split; [exact Hround|]. split; [exact Hexact|]. split; [|reflexivity].
  pose proof (checkout_sound E pid s) as Hsound. unfold performed.
  destruct Hsound as [Hu | p' e Hp' He | p' n' Hp' Hn' Hm' | p' n' em Hp' Hn' Hm' Hk'
                      | p' n' em key out Hp' Hn' Hm' Hk' Hgw]; try congruence.
  assert (p' = p) by congruence. subst p'.
  assert (n' = n) by congruence. subst n'.
  assert (em = user_email) by congruence. subst em.
  assert (key = secret_key) by congruence. subst key.
  destruct Hgw; reflexivity.
Qed.

Lemma checkout_amount_is_rounded_price_witness :
  let E := sample_env ∅ (Response (Some accepted_response)) ConnectionFailed in
  let p := Product 2 "Medium Credit Pack" (float_of_Z 10) 1200 in
  next_product 2 = Ok p /\
  nonempty (sample_session !! "email") = Some "alice@example.com" /\
  nonempty (config E !! "PAYSTACK_SECRET_KEY") = Some "sk_test_51" /\
  exists n,
    py_round (float_mul (float_of_Z 10) (float_of_Z 100)) = Ok n /\
    outbound_calls (performed (run (checkout E 2) sample_session))
    = [HttpPost initialize_url (initialize_headers "sk_test_51")
         (initialize_payload E "alice@example.com" n
            (generate_paystack_reference E "alice@example.com" 2) p)].
Proof.
  intros E p.
  assert (Hp : next_product 2 = Ok p) by reflexivity.
  assert (Hm : nonempty (sample_session !! "email") = Some "alice@example.com")
    by reflexivity.
  assert (Hk : nonempty (config E !! "PAYSTACK_SECRET_KEY") = Some "sk_test_51")
    by reflexivity.
  split; [exact Hp|]. split; [exact Hm|]. split; [exact Hk|].
  destruct (checkout_amount_is_rounded_price E 2 p sample_session _ _ Hp Hm Hk)
    as (n & Hround & _ & Hcalls & _).
  exists n. split; assumption.
Defined.

(** C8. For a product id outside the catalog the initiation flashes the
    invalid-product message and redirects to the store page; it makes no
    outbound call and leaves the session as it was. *)
Theorem checkout_unknown_product_stays_local E pid s :
  ~ In pid (map id products) ->
  run (checkout E pid) s
  = (Ok store_redirect, World s [Flash [Lit "Invalid product selected."]]) /\
  outbound_calls (performed (run (checkout E pid) s)) = [] /\
  final_session (run (checkout E pid) s) = s.
Proof.
  intros Hnot.
  rewrite (checkout_unknown_product E pid s (next_product_unknown pid Hnot)).
  repeat split; reflexivity.
Qed.

Lemma checkout_unknown_product_stays_local_witness :
  let E := sample_env ∅ (Response (Some accepted_response)) ConnectionFailed in
  ~ In 4 (map id products) /\
  outbound_calls (performed (run (checkout E 4) sample_session)) = [] /\
  final_session (run (checkout E 4) sample_session) = sample_session.
Proof.
  intros E.
  assert (H : ~ In 4 (map id products)).
  { simpl. intros [H|[H|[H|[]]]]; discriminate. }
  split; [exact H|].
  exact (proj2 (checkout_unknown_product_stays_local E 4 sample_session H)).
Defined.

Lemma gateway_outcome_session s call reference answer out :
  gateway_outcome s call reference answer out ->
  session (snd out) = s \/
  exists r, answer = Response (Some r) /\ status_flag r = true /\
            session (snd out) = <["paystack_reference" := reference]> s.
Proof.
  intros [ | | r e He | r msg Hflag Hmsg | r u Hflag Hu | r e Hflag He ]; simpl;
    try (left; reflexivity); right; exists r; auto.
Qed.

(** C9. An initiation changes the session in one way only: it stores the
    generated reference, and only after the gateway answered the initialize
    call with a truthy status flag.  With an unknown product, no session
    e-mail, no credential, a transport error or a response whose flag is
    false, the session comes back as it was. *)
Theorem checkout_stores_reference_only_when_accepted E pid s :
  (final_session (run (checkout E pid) s) = s \/
   exists p n user_email secret_key r,
     next_product pid = Ok p /\
     amount_in_subunit p = Ok n /\
     nonempty (s !! "email") = Some user_email /\
     nonempty (config E !! "PAYSTACK_SECRET_KEY") = Some secret_key /\
     gateway_post E initialize_url (initialize_headers secret_key)
       (initialize_payload E user_email n
          (generate_paystack_reference E user_email pid) p)
     = Response (Some r) /\
     status_flag r = true /\
     final_session (run (checkout E pid) s)
     = <["paystack_reference" := generate_paystack_reference E user_email pid]> s) /\
  (next_product pid = Raise StopIteration \/
   nonempty (s !! "email") = None \/
   nonempty (config E !! "PAYSTACK_SECRET_KEY") = None \/
   (forall url hdrs body, gateway_post E url hdrs body = ConnectionFailed) \/
   (forall url hdrs body, exists r,
      gateway_post E url hdrs body = Response (Some r) /\ status_flag r = false) ->
   final_session (run (checkout E pid) s) = s).
Proof.
  assert (Hmain :
    final_session (run (checkout E pid) s) = s \/
    exists p n user_email secret_key r,
      next_product pid = Ok p /\
      amount_in_subunit p = Ok n /\
      nonempty (s !! "email") = Some user_email /\
      nonempty (config E !! "PAYSTACK_SECRET_KEY") = Some secret_key /\
      gateway_post E initialize_url (initialize_headers secret_key)
        (initialize_payload E user_email n
           (generate_paystack_reference E user_email pid) p)
      = Response (Some r) /\
      status_flag r = true /\
      final_session (run (checkout E pid) s)
      = <["paystack_reference" := generate_paystack_reference E user_email pid]> s).
  { pose proof (checkout_sound E pid s) as Hsound.
    unfold final_session.
    destruct Hsound as [Hu | p e Hp He | p n Hp Hn Hm | p n em Hp Hn Hm Hk
                        | p n em key out Hp Hn Hm Hk Hgw];
      try (left; reflexivity).
    destruct (gateway_outcome_session _ _ _ _ _ Hgw) as [Hs | (r & Hr & Hflag & Hs)].
    - left. exact Hs.
    - right. exists p, n, em, key, r. repeat split; assumption. }
  split; [exact Hmain|].
  intros Hcase.
  destruct Hmain as [Hs | (p & n & em & key & r & Hp & Hn & Hm & Hk & Hr & Hflag & Hs)];
    [exact Hs|].
  exfalso.
  destruct Hcase as [H | [H | [H | [H | H]]]].
  - congruence.
  - congruence.
  - congruence.
  - rewrite (H initialize_url (initialize_headers key)
               (initialize_payload E em n (generate_paystack_reference E em pid) p))
      in Hr.
    discriminate.
  - destruct (H initialize_url (initialize_headers key)
                (initialize_payload E em n (generate_paystack_reference E em pid) p))
      as (r' & Hr' & Hflag').
    rewrite Hr in Hr'. injection Hr' as <-. congruence.
Qed.

Lemma checkout_stores_reference_only_when_accepted_witness :
  let E := sample_env ∅ ConnectionFailed ConnectionFailed in
  (forall url hdrs body, gateway_post E url hdrs body = ConnectionFailed) /\
  final_session (run (checkout E 1) sample_session) = sample_session.
Proof.
  intros E.
  assert (H : forall url hdrs body, gateway_post E url hdrs body = ConnectionFailed)
    by (intros; reflexivity).
  split; [exact H|].
  apply (proj2 (checkout_stores_reference_only_when_accepted E 1 sample_session)).
  right. right. right. left. exact H.
Defined.

(** ** Where the handlers part from their description *)

Lemma success_always_redirects E s : fst (run (success E) s) = Ok home.
Proof.
  destruct (found_reference E s) as [reference|] eqn:Href.
  - rewrite (success_with_reference E s reference Href). reflexivity.
  - rewrite (success_without_reference E s Href). reflexivity.
Qed.

Lemma cancel_always_redirects s :
  run cancel s
  = (Ok home,
     World (delete "paystack_reference" s)
       [SessionPop "paystack_reference";
        Flash [Lit "Payment cancelled. No charge was made."]]).
Proof. reflexivity. Qed.

(** An initiation that does not end in a redirect ends in an exception
    raised while reading the gateway's answer. *)
Lemma checkout_redirects_or_raises E pid s :
  (exists to, fst (run (checkout E pid) s) = Ok (Redirect to)) \/
  (exists e, fst (run (checkout E pid) s) = Raise e /\ processing_error e).
Proof.
  pose proof (checkout_sound E pid s) as Hsound.
  destruct Hsound as [Hu | p e Hp He | p n Hp Hn Hm | p n em Hp Hn Hm Hk
                      | p n em key out Hp Hn Hm Hk Hgw]; simpl.
  - left. eexists. reflexivity.
  - right. exists e. split; [reflexivity|]. eapply int_of_float_raises. exact He.
  - left. eexists. reflexivity.
  - left. eexists. reflexivity.
  - destruct Hgw as [ | | r e He | r msg Hflag Hmsg | r u Hflag Hu | r e Hflag He ]; simpl;
      try (left; eexists; reflexivity); right; exists e; split; try reflexivity.
    + eapply get_raises. exact He.
    + eapply authorization_url_raises. exact He.
Qed.

(** C7. The initiation does not always end in a redirect: when the gateway
    answers the initialize call with a true status flag and no data object,
    the [KeyError] raised while reading the authorization URL is not a
    [RequestException], passes the only [except] clause and leaves the
    handler, after the reference has been written to the session. *)
Theorem checkout_raises_on_acceptance_without_data :
  let E := sample_env ∅ (Response (Some accepted_without_data)) ConnectionFailed in
  fst (run (checkout E 1) sample_session) = Raise KeyError /\
  final_session (run (checkout E 1) sample_session) !! "paystack_reference"
  = Some (generate_paystack_reference E "alice@example.com" 1).
Proof. vm_compute. split; reflexivity. Qed.

Lemma exact_fallback_id paid_subunit : exact_fallback paid_subunit = paid_subunit.
Proof.
  unfold exact_fallback.
  assert (H : (inject_Z paid_subunit / inject_Z 100 * inject_Z 100
               == inject_Z paid_subunit)%Q) by field.
  rewrite H. apply Qfloor_Z.
Qed.

(** Without a credit field in the metadata the amount handed to the credit
    manager is the one [fallback_credits] derives from the paid amount. *)
Lemma resolve_credits_without_field d md fields :
  get d "metadata" (JDict []) = Ok md ->
  get md "custom_fields" (JList []) = Ok (JList fields) ->
  forallb other_field fields = true ->
  resolve_credits d = fallback_credits d.
Proof.
  intros Hmd Hcf Hother. unfold resolve_credits. rewrite Hmd. simpl. rewrite Hcf. simpl.
  clear Hcf.
  assert (Hscan : scan_custom_fields fields = Ok 0).
  { induction fields as [|f rest IH]; [reflexivity|].
    simpl in Hother. apply andb_prop in Hother as [Hf Hrest].
    destruct f as [| | | | | |items]; try discriminate. simpl in *.
    destruct (lookup_item "variable_name" items) as [nm|]; simpl in *.
    - apply negb_true_iff in Hf. rewrite Hf. auto.
    - auto. }
  rewrite Hscan. reflexivity.
Qed.

(** Up to 200.00 paid, the fallback credits the paid amount or one credit
    less. *)
Lemma fallback_gap_small : gap_within_one_below 20001 = true.
Proof. vm_compute. reflexivity. Qed.

(** C3. The fallback does not credit [floor(paid_subunit / 100 * 100)] for
    every payment.  That formula is the paid amount itself, 1999 for 1999
    subunits; the handler divides in binary64, where 1999 / 100 is the float
    19.99 and its product with 100 is 1998.9999999999998, and credits the
    truncation 1998.  Likewise 29 subunits give 28 credits, while 2000 give
    2000. *)
Theorem success_fallback_loses_a_credit :
  let credited amount :=
    credit_calls (performed (run
      (success (sample_env ∅ ConnectionFailed
                  (Response (Some (paid_without_metadata amount)))))
      sample_session)) in
  (credited 1999 = [(JStr "alice@example.com", 1998)] /\ exact_fallback 1999 = 1999) /\
  (credited 29 = [(JStr "alice@example.com", 28)] /\ exact_fallback 29 = 29) /\
  (credited 2000 = [(JStr "alice@example.com", 2000)] /\ exact_fallback 2000 = 2000).
Proof. vm_compute. repeat split; reflexivity. Qed.

(** ** The transaction reference *)

Lemma upper_char_idempotent c : upper_char (upper_char c) = upper_char c.
Proof. destruct c as [[] [] [] [] [] [] [] []]; reflexivity. Qed.

Lemma upper_idempotent s : upper (upper s) = upper s.
Proof.
  induction s as [|c s IH]; [reflexivity|].
  simpl. rewrite upper_char_idempotent, IH. reflexivity.
Qed.

Lemma upper_substring s : forall n m, upper (substring n m s) = substring n m (upper s).
Proof.
  induction s as [|c s IH]; intros n m.
  - destruct n, m; reflexivity.
  - destruct n as [|n]; destruct m as [|m]; simpl; try reflexivity.
    + rewrite IH. reflexivity.
    + apply IH.
    + apply IH.
Qed.

Lemma prefix_append n a b :
  (n <= String.length a)%nat -> prefix n (a ++ b) = prefix n a.
Proof.
  unfold prefix. revert a.
  induction n as [|n IH]; intros [|c a]; simpl; intros Hn; try reflexivity; try lia.
  - destruct b; reflexivity.
  - rewrite IH by lia. reflexivity.
Qed.

Lemma lower_upper_char c : lower_hex_char c = true -> lower_char (upper_char c) = c.
Proof.
  destruct c as [[] [] [] [] [] [] [] []]; intros H; vm_compute in H;
    try discriminate H; reflexivity.
Qed.

Lemma lower_upper s : lower_hex s = true -> lower (upper s) = s.
Proof.
  induction s as [|c s IH]; [reflexivity|].
  simpl. intros H. apply andb_prop in H as [Hc Hs].
  rewrite (lower_upper_char c Hc), (IH Hs). reflexivity.
Qed.

Lemma lower_hex_substring s :
  forall n m, lower_hex s = true -> lower_hex (substring n m s) = true.
Proof.
  induction s as [|c s IH]; intros n m.
  - destruct n, m; reflexivity.
  - simpl. intros H. apply andb_prop in H as [Hc Hs].
    destruct n as [|n]; destruct m as [|m]; simpl; try reflexivity.
    + unfold lower_hex in *. simpl. rewrite Hc. simpl. apply (IH 0%nat m Hs).
    + apply (IH n 0%nat Hs).
    + apply (IH n (S m) Hs).
Qed.

Lemma append_cancel_l (a b c : string) : a ++ b = a ++ c -> b = c.
Proof.
  induction a as [|x a IH]; simpl; [auto|].
  intros H. injection H as H. auto.
Qed.

(** X1. For one purchaser and one product, two generated references are equal
    exactly when the UUIDs drawn agree on their first ten hex digits: the
    random fragment alone tells two purchase attempts apart, and it always
    does when those digits differ. *)
Theorem generate_paystack_reference_collides_on_uuid E1 E2 user_email pid :
  ascii_only user_email = true ->
  lower_hex (uuid4_hex E1) = true ->
  lower_hex (uuid4_hex E2) = true ->
  generate_paystack_reference E1 user_email pid
  = generate_paystack_reference E2 user_email pid
  <-> prefix 10 (uuid4_hex E1) = prefix 10 (uuid4_hex E2).
Proof.
  intros _ H1 H2. unfold generate_paystack_reference. split.
  - intros H. do 5 apply append_cancel_l in H.
    apply (f_equal lower) in H.
    rewrite !lower_upper in H by (apply lower_hex_substring; assumption).
    exact H.
  - intros ->. reflexivity.
Qed.

Lemma generate_paystack_reference_collides_on_uuid_witness :
  let E1 := sample_env ∅ ConnectionFailed ConnectionFailed in
  ascii_only "alice@example.com" = true /\
  lower_hex (uuid4_hex E1) = true /\
  lower_hex (uuid4_hex other_uuid_env) = true /\
  generate_paystack_reference E1 "alice@example.com" 1
  <> generate_paystack_reference other_uuid_env "alice@example.com" 1.
Proof.
  intros E1.
  assert (Ha : ascii_only "alice@example.com" = true) by reflexivity.
  assert (H1 : lower_hex (uuid4_hex E1) = true) by reflexivity.
  assert (H2 : lower_hex (uuid4_hex other_uuid_env) = true) by reflexivity.
  split; [exact Ha|]. split; [exact H1|]. split; [exact H2|].
  intros H.
  apply (proj1 (generate_paystack_reference_collides_on_uuid E1 other_uuid_env
                  "alice@example.com" 1 Ha H1 H2)) in H.
  vm_compute in H. discriminate H.
Defined.

(** X2. For an ASCII address, the reference reads the e-mail through its
    first four characters only, and without regard to their case: a longer
    address with the same start, or the same address in capitals, gives the
    same reference. *)
Theorem generate_paystack_reference_reads_four_characters E user_email rest pid :
  ascii_only user_email = true ->
  (4 <= String.length user_email)%nat ->
  generate_paystack_reference E (user_email ++ rest) pid
  = generate_paystack_reference E user_email pid /\
  generate_paystack_reference E (upper user_email) pid
  = generate_paystack_reference E user_email pid.
Proof.
  intros _ Hlen. unfold generate_paystack_reference. split.
  - rewrite (prefix_append 4 user_email rest Hlen). reflexivity.
  - unfold prefix. rewrite <- upper_substring, upper_idempotent. reflexivity.
Qed.

Lemma generate_paystack_reference_reads_four_characters_witness :
  let E := sample_env ∅ ConnectionFailed ConnectionFailed in
  ascii_only "alice" = true /\
  (4 <= String.length "alice")%nat /\
  generate_paystack_reference E ("alice" ++ "@example.com") 1
  = generate_paystack_reference E "alice" 1.
Proof.
  intros E.
  assert (Ha : ascii_only "alice" = true) by reflexivity.
  assert (H : (4 <= String.length "alice")%nat) by (simpl; repeat constructor).
  split; [exact Ha|]. split; [exact H|].
  exact (proj1 (generate_paystack_reference_reads_four_characters E "alice"
                  "@example.com" 1 Ha H)).
Defined.

(** ** More on verification *)

Lemma nonempty_Some o x : nonempty o = Some x -> o = Some x.
Proof. destruct o as [[|c s]|]; simpl; intros H; inversion H; reflexivity. Qed.

Lemma found_reference_query E s q :
  nonempty (request_args E !! "reference") = Some q -> found_reference E s = Some q.
Proof.
  intros Hq. unfold found_reference, or_else. rewrite Hq. exact Hq.
Qed.

Lemma found_reference_session E s :
  nonempty (request_args E !! "reference") = None ->
  found_reference E s = nonempty (s !! "paystack_reference").
Proof. intros Hq. unfold found_reference, or_else. rewrite Hq. reflexivity. Qed.

Lemma success_outbound_calls E s :
  outbound_calls (performed (run (success E) s)) =
  match found_reference E s with
  | None => []
  | Some reference => [HttpGet (verify_url reference) (verify_headers E)]
  end.
Proof.
  destruct (found_reference E s) as [reference|] eqn:Href.
  - rewrite (success_with_reference E s reference Href). unfold performed. simpl.
    rewrite outbound_calls_verification_effects. reflexivity.
  - rewrite (success_without_reference E s Href). reflexivity.
Qed.

Lemma success_processing_failure E s reference r e :
  found_reference E s = Some reference ->
  gateway_get E (verify_url reference) (verify_headers E) = Response (Some r) ->
  processing_error e ->
  verified r = Raise e \/
  (verified r = Ok true /\ credit_order r = Raise e) \/
  (verified r = Ok false /\ failure_status r = Raise e) ->
  run (success E) s = processing_failure E s reference e.
Proof.
  intros Href Hanswer He Hraise.
  rewrite (success_with_reference E s reference Href), Hanswer.
  assert (Heff : verification_effects reference (Response (Some r))
                 = verification_error_effects e).
  { unfold verification_effects.
    destruct Hraise as [-> | [[-> ->] | [-> ->]]]; reflexivity. }
  rewrite Heff. unfold verification_error_effects, processing_failure.
  unfold processing_error in He. rewrite He. reflexivity.
Qed.

(** X3. With no reference in the query string and none in the session (an
    empty string counts as none), the verification only flashes the
    missing-reference message and redirects home: no outbound call, no
    credit, the session untouched. *)
Theorem success_without_any_reference E s :
  nonempty (request_args E !! "reference") = None ->
  nonempty (s !! "paystack_reference") = None ->
  run (success E) s
  = (Ok home,
     World s [Flash [Lit "Payment verification failed: No transaction reference found."]]) /\
  outbound_calls (performed (run (success E) s)) = [] /\
  credit_calls (performed (run (success E) s)) = [].
Proof.
  intros Hq Hs.
  assert (Href : found_reference E s = None)
    by (rewrite found_reference_session; assumption).
  rewrite (success_without_reference E s Href). repeat split; reflexivity.
Qed.

Lemma success_without_any_reference_witness :
  let E := sample_env {["reference" := ""]} ConnectionFailed
             (Response (Some paid_response)) in
  let s : gmap string string := {["email" := "alice@example.com"]} in
  nonempty (request_args E !! "reference") = None /\
  credit_calls (performed (run (success E) s)) = [].
Proof.
  intros E s.
  assert (Hq : nonempty (request_args E !! "reference") = None) by reflexivity.
  split; [exact Hq|].
  exact (proj2 (proj2 (success_without_any_reference E s Hq eq_refl))).
Defined.

(** X4. A reference given in the query string is the one verified, whatever
    the session holds: the single outbound call is the verify request for
    it, and the session's own pending reference is dropped all the same. *)
Theorem success_prefers_query_reference E s q :
  nonempty (request_args E !! "reference") = Some q ->
  outbound_calls (performed (run (success E) s))
  = [HttpGet ("https://api.paystack.co/transaction/verify/" ++ q) (verify_headers E)] /\
  final_session (run (success E) s) = delete "paystack_reference" s.
Proof.
  intros Hq. pose proof (found_reference_query E s q Hq) as Href.
  split.
  - rewrite success_outbound_calls, Href. reflexivity.
  - rewrite (success_with_reference E s q Href). reflexivity.
Qed.

Lemma success_prefers_query_reference_witness :
  let E := query_env ConnectionFailed in
  nonempty (request_args E !! "reference") = Some "LUNES-BOB@-3-0A1B2C3D4E" /\
  outbound_calls (performed (run (success E) sample_session))
  = [HttpGet "https://api.paystack.co/transaction/verify/LUNES-BOB@-3-0A1B2C3D4E"
       (verify_headers E)].
Proof.
  intros E.
  assert (Hq : nonempty (request_args E !! "reference") = Some "LUNES-BOB@-3-0A1B2C3D4E")
    by reflexivity.
  split; [exact Hq|].
  exact (proj1 (success_prefers_query_reference E sample_session _ Hq)).
Defined.

(** X5. One verification makes at most one outbound call, the verify request
    for the reference found, and at most one call to [add_credits]. *)
Theorem success_calls_at_most_once E s :
  outbound_calls (performed (run (success E) s))
  = match found_reference E s with
    | None => []
    | Some reference => [HttpGet (verify_url reference) (verify_headers E)]
    end /\
  (length (credit_calls (performed (run (success E) s))) <= 1)%nat.
Proof.
  split; [apply success_outbound_calls|].
  rewrite success_credit_calls.
  destruct (found_reference E s) as [reference|]; [|simpl; lia].
  rewrite credit_calls_verification.
  destruct (gateway_get E (verify_url reference) (verify_headers E)) as [|[r|]];
    try (simpl; lia).
  destruct (verified r) as [[|]|e]; try (simpl; lia).
  destruct (credit_order r); simpl; lia.
Qed.



(** X7. A reference that came from the session alone is consumed by the
    verification: the same request sent again finds no reference, calls
    nobody and credits nothing. *)
Theorem success_consumes_session_reference E s reference :
  nonempty (request_args E !! "reference") = None ->
  nonempty (s !! "paystack_reference") = Some reference ->
  run (success E) (final_session (run (success E) s))
  = (Ok home,
     World (delete "paystack_reference" s)
       [Flash [Lit "Payment verification failed: No transaction reference found."]]).
Proof.
  intros Hq Hs.
  assert (Href : found_reference E s = Some reference)
    by (rewrite found_reference_session; assumption).
  rewrite (success_with_reference E s reference Href). unfold final_session. simpl.
  apply success_without_reference.
  rewrite found_reference_session by assumption.
  rewrite lookup_delete_eq. reflexivity.
Qed.

Lemma success_consumes_session_reference_witness :
  let E := sample_env ∅ ConnectionFailed (Response (Some paid_response)) in
  nonempty (sample_session !! "paystack_reference") = Some "LUNES-ALIC-1-9F1C2E7A4B" /\
  performed (run (success E) (final_session (run (success E) sample_session)))
  = [Flash [Lit "Payment verification failed: No transaction reference found."]].
Proof.
  intros E.
  assert (Hs : nonempty (sample_session !! "paystack_reference")
               = Some "LUNES-ALIC-1-9F1C2E7A4B") by reflexivity.
  split; [exact Hs|].
  rewrite (success_consumes_session_reference E sample_session _ eq_refl Hs).
  reflexivity.
Defined.

(** X8. Unlike the initiation, the verification does not check the gateway
    credential: with none configured it still calls the gateway, presenting
    the text [Bearer None]. *)
Theorem success_calls_without_credential E s reference :
  found_reference E s = Some reference ->
  config E !! "PAYSTACK_SECRET_KEY" = None ->
  outbound_calls (performed (run (success E) s))
  = [HttpGet (verify_url reference) [("Authorization", "Bearer None")]].
Proof.
  intros Href Hkey. rewrite success_outbound_calls, Href.
  unfold verify_headers. rewrite Hkey. reflexivity.
Qed.

Lemma success_calls_without_credential_witness :
  let E := Env ∅ ∅ "https://panel.example/success" "9f1c2e7a4b6d4c0e8a1b2c3d4e5f6a7b"
               (fun _ _ _ => ConnectionFailed) (fun _ _ => ConnectionFailed) in
  found_reference E sample_session = Some "LUNES-ALIC-1-9F1C2E7A4B" /\
  outbound_calls (performed (run (success E) sample_session))
  = [HttpGet (verify_url "LUNES-ALIC-1-9F1C2E7A4B") [("Authorization", "Bearer None")]].
Proof.
  intros E.
  assert (Href : found_reference E sample_session = Some "LUNES-ALIC-1-9F1C2E7A4B")
    by reflexivity.
  split; [exact Href|].
  exact (success_calls_without_credential E sample_session _ Href eq_refl).
Defined.

(** X9. When the verify response carries a data object with a transaction
    status, and the payment is not a success (false flag or another status),
    the user is shown the gateway's [gateway_response] text, or the bare
    status when there is none, together with the reference; nothing is
    logged and nothing credited. *)
Theorem success_reports_failed_payment E s reference items data tx_status :
  found_reference E s = Some reference ->
  gateway_get E (verify_url reference) (verify_headers E)
  = Response (Some (JDict items)) ->
  lookup_item "data" items = Some (JDict data) ->
  lookup_item "status" data = Some tx_status ->
  status_flag (JDict items) = false \/ eq_str tx_status "success" = false ->
  run (success E) s
  = (Ok home,
     World (delete "paystack_reference" s)
       [SessionPop "paystack_reference";
        HttpGet (verify_url reference) (verify_headers E);
        Flash [Lit "Payment failed: ";
               Val (match lookup_item "gateway_response" data with
                    | Some text => text
                    | None => tx_status
                    end);
               Lit ". Please try again or contact support with reference: ";
               Str reference]]).
Proof.
  intros Href Hanswer Hdata Hstatus Hfailed.
  rewrite (success_with_reference E s reference Href), Hanswer.
  assert (Hv : verified (JDict items) = Ok false).
  { unfold verified, get, getitem, rbind. simpl in Hfailed.
    rewrite Hdata, Hstatus.
    destruct (lookup_item "status" items) as [flag|]; simpl; [|reflexivity].
    destruct (truthy flag); [|reflexivity].
    destruct Hfailed as [H|H]; [discriminate | rewrite H; reflexivity]. }
  unfold verification_effects. rewrite Hv.
  unfold failure_status, getitem, get_or, rbind. rewrite Hdata, Hstatus.
  reflexivity.
Qed.

Lemma success_reports_failed_payment_witness :
  let E := sample_env ∅ ConnectionFailed (Response (Some abandoned_response)) in
  found_reference E sample_session = Some "LUNES-ALIC-1-9F1C2E7A4B" /\
  performed (run (success E) sample_session)
  = [SessionPop "paystack_reference";
     HttpGet (verify_url "LUNES-ALIC-1-9F1C2E7A4B") (verify_headers E);
     Flash [Lit "Payment failed: "; Val (JStr "Declined");
            Lit ". Please try again or contact support with reference: ";
            Str "LUNES-ALIC-1-9F1C2E7A4B"]].
Proof.
  intros E.
  assert (Href : found_reference E sample_session = Some "LUNES-ALIC-1-9F1C2E7A4B")
    by reflexivity.
  split; [exact Href|].
  rewrite (success_reports_failed_payment E sample_session _ _ _ (JStr "abandoned")
             Href eq_refl eq_refl eq_refl (or_intror eq_refl)).
  reflexivity.
Defined.

(** X10. When the gateway refuses the verification outright (an object with
    a false flag and no data object, as for an unknown reference), reading
    the data raises [KeyError] on the failed-payment branch: the user gets
    the generic internal-error message, never the gateway's own, and nothing
    is credited. *)
Theorem success_hides_gateway_refusal E s reference items :
  found_reference E s = Some reference ->
  gateway_get E (verify_url reference) (verify_headers E)
  = Response (Some (JDict items)) ->
  status_flag (JDict items) = false ->
  lookup_item "data" items = None ->
  run (success E) s = processing_failure E s reference KeyError.
Proof.
  intros Href Hanswer Hflag Hdata.
  apply (success_processing_failure E s reference (JDict items) KeyError Href Hanswer);
    [reflexivity|].
  right. right. split.
  - unfold verified, get, rbind. simpl in Hflag.
    destruct (lookup_item "status" items) as [flag|]; simpl; [|reflexivity].
    rewrite Hflag. reflexivity.
  - unfold failure_status, getitem, rbind. rewrite Hdata. reflexivity.
Qed.

Lemma success_hides_gateway_refusal_witness :
  let E := sample_env ∅ ConnectionFailed (Response (Some unknown_reference_response)) in
  found_reference E sample_session = Some "LUNES-ALIC-1-9F1C2E7A4B" /\
  run (success E) sample_session
  = processing_failure E sample_session "LUNES-ALIC-1-9F1C2E7A4B" KeyError.
Proof.
  intros E.
  assert (Href : found_reference E sample_session = Some "LUNES-ALIC-1-9F1C2E7A4B")
    by reflexivity.
  split; [exact Href|].
  exact (success_hides_gateway_refusal E sample_session _ _ Href eq_refl eq_refl eq_refl).
Defined.

(** X11. When the verify call fails at the transport level, the error is
    logged as an API error, the connection message is flashed and the handler
    redirects home without crediting. *)
Theorem success_reports_connection_error E s reference :
  found_reference E s = Some reference ->
  gateway_get E (verify_url reference) (verify_headers E) = ConnectionFailed ->
  run (success E) s
  = (Ok home,
     World (delete "paystack_reference" s)
       [SessionPop "paystack_reference";
        HttpGet (verify_url reference) (verify_headers E);
        WebhookLog [Lit "Paystack verification API error: "; Exc RequestException] true;
        Flash [Lit "Failed to verify payment with Paystack due to a connection error."]]).
Proof.
  intros Href Hanswer.
  rewrite (success_with_reference E s reference Href), Hanswer. reflexivity.
Qed.

Lemma success_reports_connection_error_witness :
  let E := sample_env ∅ ConnectionFailed ConnectionFailed in
  found_reference E sample_session = Some "LUNES-ALIC-1-9F1C2E7A4B" /\
  credit_calls (performed (run (success E) sample_session)) = [].
Proof.
  intros E.
  assert (Href : found_reference E sample_session = Some "LUNES-ALIC-1-9F1C2E7A4B")
    by reflexivity.
  split; [exact Href|].
  rewrite (success_reports_connection_error E sample_session _ Href eq_refl).
  reflexivity.
Defined.

(** X12. The default of [.get('metadata', {})] serves a missing key only: a
    paid transaction whose metadata is present but not an object (a text, a
    null) raises [AttributeError]; the payment is not credited, not even
    through the fallback, and the user gets the generic error. *)
Theorem success_rejects_non_object_metadata E s reference r data metadata :
  found_reference E s = Some reference ->
  gateway_get E (verify_url reference) (verify_headers E) = Response (Some r) ->
  status_flag r = true ->
  transaction_status r = Some (JStr "success") ->
  getitem r "data" = Ok (JDict data) ->
  lookup_item "metadata" data = Some metadata ->
  is_object metadata = false ->
  run (success E) s = processing_failure E s reference AttributeError /\
  credit_calls (performed (run (success E) s)) = [].
Proof.
  intros Href Hanswer Hflag Hstatus Hdata Hmd Hobj.
  assert (Hrun : run (success E) s = processing_failure E s reference AttributeError).
  { apply (success_processing_failure E s reference r AttributeError Href Hanswer);
      [reflexivity|].
    right. left. split; [apply verified_true_iff; split; assumption|].
    unfold credit_order, resolve_credits. rewrite Hdata. simpl. rewrite Hmd.
    destruct metadata; try discriminate; reflexivity. }
  rewrite Hrun. split; reflexivity.
Qed.

Lemma success_rejects_non_object_metadata_witness :
  let E := sample_env ∅ ConnectionFailed (Response (Some paid_with_text_metadata)) in
  found_reference E sample_session = Some "LUNES-ALIC-1-9F1C2E7A4B" /\
  credit_calls (performed (run (success E) sample_session)) = [].
Proof.
  intros E.
  assert (Href : found_reference E sample_session = Some "LUNES-ALIC-1-9F1C2E7A4B")
    by reflexivity.
  split; [exact Href|].
  exact (proj2 (success_rejects_non_object_metadata E sample_session _
                  paid_with_text_metadata _ (JStr "")
                  Href eq_refl eq_refl eq_refl eq_refl eq_refl eq_refl)).
Defined.

(** ** More on initiation *)

Lemma checkout_gateway_outcome E pid s p n user_email secret_key :
  next_product pid = Ok p ->
  amount_in_subunit p = Ok n ->
  nonempty (s !! "email") = Some user_email ->
  nonempty (config E !! "PAYSTACK_SECRET_KEY") = Some secret_key ->
  gateway_outcome s (initialize_request E pid p n user_email secret_key)
    (generate_paystack_reference E user_email pid)
    (initialize_answer E pid p n user_email secret_key)
    (run (checkout E pid) s).
Proof.
  intros Hp Hn Hm Hk.
  pose proof (checkout_sound E pid s) as Hsound.
  destruct Hsound as [Hu | p' e Hp' He | p' n' Hp' Hn' Hm' | p' n' em Hp' Hn' Hm' Hk'
                      | p' n' em key out Hp' Hn' Hm' Hk' Hgw]; try congruence.
  assert (p' = p) by congruence. subst p'.
  assert (n' = n) by congruence. subst n'.
  assert (em = user_email) by congruence. subst em.
  assert (key = secret_key) by congruence. subst key.
  exact Hgw.
Qed.

(** X13. A known product without a session e-mail (or with an empty one)
    only flashes the session error; with an e-mail but no gateway credential
    the handler logs the misconfiguration and flashes another message.  In
    both cases it redirects home without calling the gateway and without
    touching the session; the e-mail is checked first. *)
Theorem checkout_requires_email_then_credential E pid p s :
  next_product pid = Ok p ->
  (nonempty (s !! "email") = None ->
   run (checkout E pid) s
   = (Ok home, World s [Flash [Lit "User session error: Email not found."]])) /\
  (forall user_email,
     nonempty (s !! "email") = Some user_email ->
     nonempty (config E !! "PAYSTACK_SECRET_KEY") = None ->
     run (checkout E pid) s
     = (Ok home,
        World s [WebhookLog [Lit "PAYSTACK_SECRET_KEY not configured."] true;
                 Flash [Lit "Payment gateway not configured correctly."]])).
Proof.
  intros Hp.
  destruct (next_product_in pid p Hp) as [Hin _].
  destruct (catalog_amounts p Hin) as (n & _ & _ & Hn).
  split.
  - intros Hm. exact (checkout_without_email E pid p n s Hp Hn Hm).
  - intros user_email Hm Hk.
    exact (checkout_without_credential E pid p n user_email s Hp Hn Hm Hk).
Qed.

Lemma checkout_requires_email_then_credential_witness :
  let E := sample_env ∅ (Response (Some accepted_response)) ConnectionFailed in
  let s : gmap string string := {["email" := ""]} in
  next_product 3 = Ok (Product 3 "Large Credit Pack" (float_of_Z 20) 2500) /\
  run (checkout E 3) s
  = (Ok home, World s [Flash [Lit "User session error: Email not found."]]).
Proof.
  intros E s.
  assert (Hp : next_product 3 = Ok (Product 3 "Large Credit Pack" (float_of_Z 20) 2500))
    by reflexivity.
  split; [exact Hp|].
  exact (proj1 (checkout_requires_email_then_credential E 3 _ s Hp) eq_refl).
Defined.

(** X14. When the gateway answers the initialize call with an object whose
    flag is false, the user is shown the gateway's message, or
    [Unknown API Error] when the answer has none; the handler redirects home
    and the session is left as it was. *)
Theorem checkout_reports_gateway_message E pid s p n user_email secret_key items :
  next_product pid = Ok p ->
  amount_in_subunit p = Ok n ->
  nonempty (s !! "email") = Some user_email ->
  nonempty (config E !! "PAYSTACK_SECRET_KEY") = Some secret_key ->
  initialize_answer E pid p n user_email secret_key = Response (Some (JDict items)) ->
  status_flag (JDict items) = false ->
  run (checkout E pid) s
  = (Ok home,
     World s [initialize_request E pid p n user_email secret_key;
              Flash [Lit "Payment initiation failed: ";
                     Val (match lookup_item "message" items with
                          | Some text => text
                          | None => JStr "Unknown API Error"
                          end)]]).
Proof.
  intros Hp Hn Hm Hk Hanswer Hflag.
  pose proof (checkout_gateway_outcome E pid s p n user_email secret_key Hp Hn Hm Hk)
    as Hgw.
  rewrite Hanswer in Hgw.
  inversion Hgw as [ | | r e He | r msg Hflag' Hmsg | r u Hflag' Hu | r e Hflag' He ];
    subst; try congruence.
  - simpl in He. discriminate.
  - simpl in Hmsg. injection Hmsg as <-. reflexivity.
Qed.

Lemma checkout_reports_gateway_message_witness :
  let E := sample_env ∅ (Response (Some declined_response)) ConnectionFailed in
  next_product 1 = Ok (Product 1 "Small Credit Pack" (float_of_Z 5) 500) /\
  fst (run (checkout E 1) sample_session) = Ok home /\
  final_session (run (checkout E 1) sample_session) = sample_session.
Proof.
  intros E.
  assert (Hp : next_product 1 = Ok (Product 1 "Small Credit Pack" (float_of_Z 5) 500))
    by reflexivity.
  split; [exact Hp|].
  rewrite (checkout_reports_gateway_message E 1 sample_session _ 500
             "alice@example.com" "sk_test_51"
             [("status", JBool false); ("message", JStr "Invalid key")]
             Hp eq_refl eq_refl eq_refl eq_refl eq_refl).
  split; reflexivity.
Defined.

(** X15. When the initialize call fails at the transport level, the error is
    logged, the connectivity message is flashed, the handler redirects home
    and no reference is stored; the call is not retried. *)
Theorem checkout_reports_connection_error E pid s p n user_email secret_key :
  next_product pid = Ok p ->
  amount_in_subunit p = Ok n ->
  nonempty (s !! "email") = Some user_email ->
  nonempty (config E !! "PAYSTACK_SECRET_KEY") = Some secret_key ->
  initialize_answer E pid p n user_email secret_key = ConnectionFailed ->
  run (checkout E pid) s
  = (Ok home,
     World s [initialize_request E pid p n user_email secret_key;
              WebhookLog [Lit "Paystack API initialization error: ";
                          Exc RequestException] true;
              Flash [Lit "Could not connect to payment gateway."]]).
Proof.
  intros Hp Hn Hm Hk Hanswer.
  pose proof (checkout_gateway_outcome E pid s p n user_email secret_key Hp Hn Hm Hk)
    as Hgw.
  rewrite Hanswer in Hgw. inversion Hgw. reflexivity.
Qed.

Lemma checkout_reports_connection_error_witness :
  let E := sample_env ∅ ConnectionFailed ConnectionFailed in
  next_product 1 = Ok (Product 1 "Small Credit Pack" (float_of_Z 5) 500) /\
  fst (run (checkout E 1) sample_session) = Ok home.
Proof.
  intros E.
  assert (Hp : next_product 1 = Ok (Product 1 "Small Credit Pack" (float_of_Z 5) 500))
    by reflexivity.
  split; [exact Hp|].
  rewrite (checkout_reports_connection_error E 1 sample_session _ 500
             "alice@example.com" "sk_test_51" Hp eq_refl eq_refl eq_refl eq_refl).
  reflexivity.
Defined.

(** X16. When the gateway accepts the initialize call (truthy flag) and gives
    an authorization URL, the handler stores the generated reference in the
    session and redirects the browser to that URL; the one request it sent
    carried the session's e-mail, the amount, the callback URL, the reference
    and the product's credits. *)
Theorem checkout_redirects_to_gateway E pid s p n user_email secret_key r u :
  next_product pid = Ok p ->
  amount_in_subunit p = Ok n ->
  nonempty (s !! "email") = Some user_email ->
  nonempty (config E !! "PAYSTACK_SECRET_KEY") = Some secret_key ->
  initialize_answer E pid p n user_email secret_key = Response (Some r) ->
  status_flag r = true ->
  authorization_url r = Ok u ->
  run (checkout E pid) s
  = (Ok (Redirect (External u)),
     World (<["paystack_reference" := generate_paystack_reference E user_email pid]> s)
       [HttpPost "https://api.paystack.co/transaction/initialize"
          [("Authorization", "Bearer " ++ secret_key);
           ("Content-Type", "application/json")]
          (JDict [("email", JStr user_email);
                  ("amount", JInt n);
                  ("callback_url", JStr (success_url E));
                  ("reference", JStr (generate_paystack_reference E user_email pid));
                  ("metadata",
                    JDict [("custom_fields",
                      JList [JDict [("display_name", JStr "Credits");
                                    ("variable_name", JStr "credits_to_add");
                                    ("value", JInt (credits p))]])])]);
        SessionSet "paystack_reference" (generate_paystack_reference E user_email pid)]).
Proof.
  intros Hp Hn Hm Hk Hanswer Hflag Hu.
  pose proof (checkout_gateway_outcome E pid s p n user_email secret_key Hp Hn Hm Hk)
    as Hgw.
  rewrite Hanswer in Hgw.
  inversion Hgw as [ | | r0 e He | r0 msg Hflag' Hmsg | r0 u0 Hflag' Hu' | r0 e Hflag' He ];
    subst; try congruence.
  - destruct r; simpl in Hflag, He; discriminate.
  - assert (u0 = u) by congruence. subst u0. reflexivity.
Qed.

Lemma checkout_redirects_to_gateway_witness :
  let E := sample_env ∅ (Response (Some accepted_response)) ConnectionFailed in
  next_product 1 = Ok (Product 1 "Small Credit Pack" (float_of_Z 5) 500) /\
  fst (run (checkout E 1) sample_session)
  = Ok (Redirect (External (JStr "https://checkout.paystack.com/0peioxfhpn"))).
Proof.
  intros E.
  assert (Hp : next_product 1 = Ok (Product 1 "Small Credit Pack" (float_of_Z 5) 500))
    by reflexivity.
  split; [exact Hp|].
  rewrite (checkout_redirects_to_gateway E 1 sample_session _ 500
             "alice@example.com" "sk_test_51" accepted_response
             (JStr "https://checkout.paystack.com/0peioxfhpn")
             Hp eq_refl eq_refl eq_refl eq_refl eq_refl eq_refl).
  reflexivity.
Defined.

Lemma getitem_raises_class o k e :
  getitem o k = Raise e -> e = KeyError \/ e = TypeError.
Proof.
  destruct o; simpl; try solve [intros H; inversion H; auto].
  destruct (lookup_item k items); intros H; inversion H; auto.
Qed.

(** X17. When the gateway's answer to the initialize call is a transport
    failure or a body that decodes as JSON, the initiation ends without a
    redirect in two situations only: the decoded body is not an object
    ([AttributeError]), or it has a truthy flag and its authorization URL
    cannot be read ([KeyError] or [TypeError]). *)
Theorem checkout_raises_only_on_malformed_answer E pid s e :
  (forall url hdrs body, gateway_post E url hdrs body <> Response None) ->
  fst (run (checkout E pid) s) = Raise e ->
  processing_error e /\
  exists p n user_email secret_key r,
    next_product pid = Ok p /\
    amount_in_subunit p = Ok n /\
    nonempty (s !! "email") = Some user_email /\
    nonempty (config E !! "PAYSTACK_SECRET_KEY") = Some secret_key /\
    initialize_answer E pid p n user_email secret_key = Response (Some r) /\
    ((is_object r = false /\ e = AttributeError) \/
     (status_flag r = true /\ authorization_url r = Raise e /\
      (e = KeyError \/ e = TypeError))).
Proof.
  intros _.
  pose proof (checkout_sound E pid s) as Hsound.
  destruct Hsound as [Hu | p e' Hp He | p n Hp Hn Hm | p n em Hp Hn Hm Hk
                      | p n em key out Hp Hn Hm Hk Hgw]; simpl; try discriminate.
  - intros _. exfalso.
    destruct (next_product_in pid p Hp) as [Hin _].
    destruct (catalog_amounts p Hin) as (n & _ & _ & Hn). congruence.
  - unfold initialize_answer.
    remember (gateway_post E _ _ _) as answer eqn:Hanswer.
    destruct Hgw as [ | | r e' He | r msg Hflag Hmsg | r u Hflag Hu | r e' Hflag He ];
      simpl; try discriminate; intros H; injection H as ->.
    + split; [eapply get_raises; exact He|].
      exists p, n, em, key, r. repeat split; try assumption; auto.
      left. destruct r; simpl in He; inversion He; split; reflexivity.
    + split; [eapply authorization_url_raises; exact He|].
      exists p, n, em, key, r. repeat split; try assumption; auto.
      right. repeat split; try assumption.
      revert He. unfold authorization_url.
      destruct (getitem r "data") as [d|e0] eqn:Hd; simpl.
      * apply getitem_raises_class.
      * intros Hraise. inversion Hraise; subst. eapply getitem_raises_class. exact Hd.
Qed.

Lemma checkout_raises_only_on_malformed_answer_witness :
  let E := sample_env ∅ (Response (Some (JList []))) ConnectionFailed in
  (forall url hdrs body, gateway_post E url hdrs body <> Response None) /\
  fst (run (checkout E 2) sample_session) = Raise AttributeError /\
  processing_error AttributeError.
Proof.
  intros E.
  assert (Hdecodes : forall url hdrs body, gateway_post E url hdrs body <> Response None)
    by (intros url hdrs body; discriminate).
  assert (H : fst (run (checkout E 2) sample_session) = Raise AttributeError)
    by reflexivity.
  split; [exact Hdecodes|]. split; [exact H|].
  exact (proj1 (checkout_raises_only_on_malformed_answer E 2 sample_session _ Hdecodes H)).
Defined.

(** X18. An initiation never calls [add_credits], never issues a GET, and
    makes at most one outbound call. *)
Theorem checkout_never_credits E pid s :
  credit_calls (performed (run (checkout E pid) s)) = [] /\
  (outbound_calls (performed (run (checkout E pid) s)) = [] \/
   exists hdrs body,
     outbound_calls (performed (run (checkout E pid) s))
     = [HttpPost initialize_url hdrs body]).
Proof.
  pose proof (checkout_sound E pid s) as Hsound.
  unfold performed.
  destruct Hsound as [Hu | p e' Hp He | p n Hp Hn Hm | p n em Hp Hn Hm Hk
                      | p n em key out Hp Hn Hm Hk Hgw]; simpl;
    try (split; [reflexivity | left; reflexivity]).
  destruct Hgw; simpl; (split; [reflexivity | right; eexists; eexists; reflexivity]).
Qed.

(** X19. The only session entry the three handlers ever write or delete is
    the pending reference: every other entry, the e-mail included, comes
    back as it was. *)
Theorem handlers_touch_pending_reference_only E pid s k :
  k <> "paystack_reference" ->
  final_session (run (checkout E pid) s) !! k = s !! k /\
  final_session (run (success E) s) !! k = s !! k /\
  final_session (run cancel s) !! k = s !! k.
Proof.
  intros Hk. repeat split.
  - pose proof (checkout_sound E pid s) as Hsound.
    unfold final_session.
    destruct Hsound as [Hu | p e' Hp He | p n Hp Hn Hm | p n em Hp Hn Hm Hk'
                        | p n em key out Hp Hn Hm Hk' Hgw]; try reflexivity.
    destruct (gateway_outcome_session _ _ _ _ _ Hgw) as [-> | (r & _ & _ & ->)];
      [reflexivity|].
    apply lookup_insert_ne. congruence.
  - destruct (found_reference E s) as [reference|] eqn:Href.
    + rewrite (success_with_reference E s reference Href). unfold final_session. simpl.
      apply lookup_delete_ne. congruence.
    + rewrite (success_without_reference E s Href). reflexivity.
  - unfold final_session. simpl. apply lookup_delete_ne. congruence.
Qed.

Lemma handlers_touch_pending_reference_only_witness :
  let E := sample_env ∅ (Response (Some accepted_response))
             (Response (Some paid_response)) in
  "email" <> "paystack_reference" /\
  final_session (run (checkout E 1) sample_session) !! "email"
  = sample_session !! "email".
Proof.
  intros E.
  assert (Hk : "email" <> "paystack_reference") by discriminate.
  split; [exact Hk|].
  exact (proj1 (handlers_touch_pending_reference_only E 1 sample_session "email" Hk)).
Defined.

(** ** The handlers in sequence *)

Lemma generate_paystack_reference_nonempty E user_email pid :
  nonempty (Some (generate_paystack_reference E user_email pid))
  = Some (generate_paystack_reference E user_email pid).
Proof. reflexivity. Qed.

(** X20. The reference stored by an accepted initiation is the one a later
    verification without a query-string reference sends to the gateway. *)
Theorem success_verifies_stored_reference E1 E2 pid s user_email u :
  fst (run (checkout E1 pid) s) = Ok (Redirect (External u)) ->
  nonempty (s !! "email") = Some user_email ->
  nonempty (request_args E2 !! "reference") = None ->
  outbound_calls
    (performed (run (success E2) (final_session (run (checkout E1 pid) s))))
  = [HttpGet (verify_url (generate_paystack_reference E1 user_email pid))
       (verify_headers E2)].
Proof.
  intros Haccepted Hm Hq.
  assert (Hs : final_session (run (checkout E1 pid) s)
               = <["paystack_reference" := generate_paystack_reference E1 user_email pid]> s).
  { pose proof (checkout_sound E1 pid s) as Hsound.
    unfold final_session.
    destruct Hsound as [Hu | p e' Hp He | p n Hp Hn Hm' | p n em Hp Hn Hm' Hk
                        | p n em key out Hp Hn Hm' Hk Hgw];
      simpl in Haccepted; try discriminate.
    assert (em = user_email) by congruence. subst em.
    destruct Hgw; simpl in *; try discriminate. reflexivity. }
  rewrite Hs, success_outbound_calls, found_reference_session by assumption.
  rewrite lookup_insert_eq, generate_paystack_reference_nonempty. reflexivity.
Qed.

Lemma success_verifies_stored_reference_witness :
  let E := sample_env ∅ (Response (Some accepted_response)) ConnectionFailed in
  let s : gmap string string := {["email" := "alice@example.com"]} in
  fst (run (checkout E 1) s)
  = Ok (Redirect (External (JStr "https://checkout.paystack.com/0peioxfhpn"))) /\
  outbound_calls (performed (run (success E) (final_session (run (checkout E 1) s))))
  = [HttpGet "https://api.paystack.co/transaction/verify/LUNES-ALIC-1-9F1C2E7A4B"
       (verify_headers E)].
Proof.
  intros E s.
  assert (H : fst (run (checkout E 1) s)
              = Ok (Redirect (External (JStr "https://checkout.paystack.com/0peioxfhpn"))))
    by reflexivity.
  split; [exact H|].
  exact (success_verifies_stored_reference E E 1 s "alice@example.com" _ H eq_refl eq_refl).
Defined.

(** X21. Cancelling drops the pending reference and does nothing else: it
    redirects home without an outbound call or a credit, and a verification
    that follows without a query-string reference finds nothing to verify. *)
Theorem cancel_forgets_pending_reference E s :
  nonempty (request_args E !! "reference") = None ->
  fst (run cancel s) = Ok home /\
  final_session (run cancel s) = delete "paystack_reference" s /\
  outbound_calls (performed (run cancel s)) = [] /\
  credit_calls (performed (run cancel s)) = [] /\
  run (success E) (final_session (run cancel s))
  = (Ok home,
     World (delete "paystack_reference" s)
       [Flash [Lit "Payment verification failed: No transaction reference found."]]).
Proof.
  intros Hq. repeat split.
  unfold final_session. simpl.
  apply success_without_reference.
  rewrite found_reference_session by assumption.
  rewrite lookup_delete_eq. reflexivity.
Qed.

Lemma cancel_forgets_pending_reference_witness :
  let E := sample_env ∅ ConnectionFailed (Response (Some paid_response)) in
  nonempty (request_args E !! "reference") = None /\
  credit_calls (performed (run (success E) (final_session (run cancel sample_session))))
  = [].
Proof.
  intros E.
  assert (Hq : nonempty (request_args E !! "reference") = None) by reflexivity.
  split; [exact Hq|].
  rewrite (proj2 (proj2 (proj2 (proj2
             (cancel_forgets_pending_reference E sample_session Hq))))).
  reflexivity.
Defined.

(** ** More on the credited amount *)

Lemma credit_order_from_field r pre entry post value v email :
  custom_fields r = Ok (JList (pre ++ entry :: post)) ->
  forallb other_field pre = true ->
  named_credits entry = true ->
  getitem entry "value" = Ok value ->
  py_int value = Ok v ->
  v <> 0 ->
  customer_email r = Ok email ->
  credit_order r = Ok (email, v).
Proof.
  unfold custom_fields, customer_email, credit_order, resolve_credits.
  destruct (getitem r "data") as [d|e]; simpl; [|discriminate].
  destruct (get d "metadata" (JDict [])) as [md|e]; simpl; [|discriminate].
  intros -> Hpre Hentry Hvalue Hint Hv. simpl.
  rewrite (scan_custom_fields_first pre entry post Hpre Hentry), Hvalue. simpl.
  rewrite Hint. simpl.
  apply Z.eqb_neq in Hv. rewrite Hv.
  destruct (getitem d "customer") as [c|e]; simpl; [|discriminate].
  intros ->. reflexivity.
Qed.

Lemma success_credits_order E s reference r order :
  found_reference E s = Some reference ->
  gateway_get E (verify_url reference) (verify_headers E) = Response (Some r) ->
  status_flag r = true ->
  transaction_status r = Some (JStr "success") ->
  credit_order r = Ok order ->
  credit_calls (performed (run (success E) s)) = [order].
Proof.
  intros Href Hanswer Hflag Hstatus Horder.
  rewrite success_credit_calls, Href, credit_calls_verification, Hanswer.
  assert (Hok : verified r = Ok true) by (apply verified_true_iff; split; assumption).
  rewrite Hok, Horder. reflexivity.
Qed.

(** X22. What the initiation announces is what the verification credits:
    when the gateway's verify response for a paid transaction carries back
    the custom fields of the initialize request of a catalog product, the
    transaction's customer is credited with that product's credits. *)
Theorem success_credits_announced_credits E E0 s reference r p user_email n
    transaction_reference email :
  found_reference E s = Some reference ->
  gateway_get E (verify_url reference) (verify_headers E) = Response (Some r) ->
  status_flag r = true ->
  transaction_status r = Some (JStr "success") ->
  In p products ->
  custom_fields r
  = announced_fields (initialize_payload E0 user_email n transaction_reference p) ->
  customer_email r = Ok email ->
  credit_calls (performed (run (success E) s)) = [(email, credits p)].
Proof.
  intros Href Hanswer Hflag Hstatus Hin Hfields Hemail.
  apply (success_credits_order E s reference r _ Href Hanswer Hflag Hstatus).
  apply (credit_order_from_field r [] (credits_field (JInt (credits p))) []
           (JInt (credits p)) (credits p) email);
    try reflexivity; try assumption.
  destruct Hin as [<-|[<-|[<-|[]]]]; discriminate.
Qed.

Lemma success_credits_announced_credits_witness :
  let E := sample_env ∅ ConnectionFailed
             (Response (Some (verify_response true "success" 1000
                                [credits_field (JInt 1200)]
                                [("email", JStr "alice@example.com")]))) in
  In (Product 2 "Medium Credit Pack" (float_of_Z 10) 1200) products /\
  credit_calls (performed (run (success E) sample_session))
  = [(JStr "alice@example.com", 1200)].
Proof.
  intros E.
  assert (Hin : In (Product 2 "Medium Credit Pack" (float_of_Z 10) 1200) products)
    by (right; left; reflexivity).
  split; [exact Hin|].
  exact (success_credits_announced_credits E E sample_session
           "LUNES-ALIC-1-9F1C2E7A4B" _ _ "alice@example.com" 1000
           "LUNES-ALIC-2-9F1C2E7A4B" (JStr "alice@example.com")
           eq_refl eq_refl eq_refl eq_refl Hin eq_refl eq_refl).
Defined.

(** X23. The credit value goes through [int()]: a field whose value is a
    text of digits, a float or a boolean is credited as the integer [int()]
    makes of it, provided that integer is not zero. *)
Theorem success_credits_converted_value E s reference r pre entry post value v email :
  found_reference E s = Some reference ->
  gateway_get E (verify_url reference) (verify_headers E) = Response (Some r) ->
  status_flag r = true ->
  transaction_status r = Some (JStr "success") ->
  custom_fields r = Ok (JList (pre ++ entry :: post)) ->
  forallb other_field pre = true ->
  named_credits entry = true ->
  getitem entry "value" = Ok value ->
  py_int value = Ok v ->
  v <> 0 ->
  customer_email r = Ok email ->
  credit_calls (performed (run (success E) s)) = [(email, v)].
Proof.
  intros Href Hanswer Hflag Hstatus Hfields Hpre Hentry Hvalue Hint Hv Hemail.
  apply (success_credits_order E s reference r _ Href Hanswer Hflag Hstatus).
  apply (credit_order_from_field r pre entry post value v email); assumption.
Qed.

Lemma success_credits_converted_value_witness :
  let E := sample_env ∅ ConnectionFailed (Response (Some paid_with_text_value)) in
  py_int (JStr "1_200") = Ok 1200 /\
  credit_calls (performed (run (success E) sample_session))
  = [(JStr "alice@example.com", 1200)].
Proof.
  intros E.
  assert (Hint : py_int (JStr "1_200") = Ok 1200) by reflexivity.
  split; [exact Hint|].
  apply (success_credits_converted_value E sample_session "LUNES-ALIC-1-9F1C2E7A4B"
           paid_with_text_value [] (credits_field (JStr "1_200")) [] (JStr "1_200")
           1200 (JStr "alice@example.com")); try reflexivity.
  discriminate.
Defined.

Lemma scan_custom_fields_none fields :
  forallb other_field fields = true -> scan_custom_fields fields = Ok 0.
Proof.
  induction fields as [|f rest IH]; [reflexivity|].
  simpl. intros Hall. apply andb_prop in Hall as [Hf Hrest].
  destruct f as [| | | | | |items]; try discriminate. simpl in *.
  destruct (lookup_item "variable_name" items) as [nm|]; simpl in *.
  - apply negb_true_iff in Hf. rewrite Hf. auto.
  - auto.
Qed.

(** The amount resolves to the fallback when the scan ends at zero. *)
Lemma credit_order_through_fallback r data fields :
  getitem r "data" = Ok data ->
  custom_fields r = Ok (JList fields) ->
  scan_custom_fields fields = Ok 0 ->
  credit_order r =
  (credits_to_add <~ fallback_credits data ;;
   customer <~ getitem data "customer" ;;
   user_email <~ getitem customer "email" ;;
   Ok (user_email, credits_to_add)).
Proof.
  unfold custom_fields, credit_order, resolve_credits. intros ->. simpl.
  destruct (get data "metadata" (JDict [])) as [md|e]; simpl; [|discriminate].
  intros -> Hscan. simpl. rewrite Hscan. reflexivity.
Qed.

(** X24. When the custom fields of a paid transaction hold no field named
    [credits_to_add] (the metadata or the list may be missing altogether), or
    when the first such field converts to zero, the customer is credited
    with what the fallback derives from the paid amount, zero included,
    whatever the fields after it say. *)
Theorem success_falls_back_on_paid_amount E s reference r data fields email n :
  found_reference E s = Some reference ->
  gateway_get E (verify_url reference) (verify_headers E) = Response (Some r) ->
  status_flag r = true ->
  transaction_status r = Some (JStr "success") ->
  getitem r "data" = Ok data ->
  custom_fields r = Ok (JList fields) ->
  forallb other_field fields = true \/
  (exists (pre : list json) entry post value,
     fields = (pre ++ entry :: post)%list /\
     forallb other_field pre = true /\
     named_credits entry = true /\
     getitem entry "value" = Ok value /\
     py_int value = Ok 0) ->
  fallback_credits data = Ok n ->
  customer_email r = Ok email ->
  credit_calls (performed (run (success E) s)) = [(email, n)].
Proof.
  intros Href Hanswer Hflag Hstatus Hdata Hfields Hshape Hfallback Hemail.
  apply (success_credits_order E s reference r _ Href Hanswer Hflag Hstatus).
  assert (Hscan : scan_custom_fields fields = Ok 0).
  { destruct Hshape as [Hnone | (pre & entry & post & value & -> & Hpre & Hentry & Hv & Hint)].
    - apply scan_custom_fields_none. exact Hnone.
    - rewrite (scan_custom_fields_first pre entry post Hpre Hentry), Hv. simpl.
      exact Hint. }
  rewrite (credit_order_through_fallback r data fields Hdata Hfields Hscan), Hfallback.
  simpl. revert Hemail. unfold customer_email. rewrite Hdata. simpl.
  destruct (getitem data "customer") as [c|e]; simpl; [|discriminate].
  intros ->. reflexivity.
Qed.

Lemma success_falls_back_on_paid_amount_witness :
  let E := sample_env ∅ ConnectionFailed (Response (Some paid_with_zero_value)) in
  fallback_credits
    (JDict [("status", JStr "success");
            ("reference", JStr "LUNES-ALIC-1-9F1C2E7A4B");
            ("amount", JInt 2000);
            ("gateway_response", JStr "Declined");
            ("metadata", JDict [("custom_fields", JList [credits_field (JInt 0)])]);
            ("customer", JDict [("email", JStr "alice@example.com")])])
  = Ok 2000 /\
  credit_calls (performed (run (success E) sample_session))
  = [(JStr "alice@example.com", 2000)].
Proof.
  intros E.
  match goal with |- ?F = _ /\ _ => assert (Hfb : F = Ok 2000) by (vm_compute; reflexivity) end.
  split; [exact Hfb|].
  match type of Hfb with fallback_credits ?d = _ =>
    apply (success_falls_back_on_paid_amount E sample_session "LUNES-ALIC-1-9F1C2E7A4B"
             paid_with_zero_value d [credits_field (JInt 0)] (JStr "alice@example.com") 2000)
  end; try reflexivity; try exact Hfb.
  right. exists [], (credits_field (JInt 0)), [], (JInt 0). repeat split.
Defined.

(** X25. When the fallback is needed and the paid amount cannot be turned
    into a number of credits (no amount, or an amount that is not a number),
    the payment is not credited and the user gets the generic error. *)
Theorem success_fallback_failure_credits_nothing E s reference r data fields e :
  found_reference E s = Some reference ->
  gateway_get E (verify_url reference) (verify_headers E) = Response (Some r) ->
  status_flag r = true ->
  transaction_status r = Some (JStr "success") ->
  getitem r "data" = Ok data ->
  custom_fields r = Ok (JList fields) ->
  forallb other_field fields = true ->
  fallback_credits data = Raise e ->
  run (success E) s = processing_failure E s reference e /\
  credit_calls (performed (run (success E) s)) = [].
Proof.
  intros Href Hanswer Hflag Hstatus Hdata Hfields Hnone Hfallback.
  assert (Hrun : run (success E) s = processing_failure E s reference e).
  { apply (success_processing_failure E s reference r e Href Hanswer).
    - eapply fallback_credits_raises. exact Hfallback.
    - right. left. split; [apply verified_true_iff; split; assumption|].
      rewrite (credit_order_through_fallback r data fields Hdata Hfields
                 (scan_custom_fields_none fields Hnone)), Hfallback.
      reflexivity. }
  rewrite Hrun. split; reflexivity.
Qed.

Lemma success_fallback_failure_credits_nothing_witness :
  let E := sample_env ∅ ConnectionFailed (Response (Some paid_with_text_amount)) in
  found_reference E sample_session = Some "LUNES-ALIC-1-9F1C2E7A4B" /\
  run (success E) sample_session
  = processing_failure E sample_session "LUNES-ALIC-1-9F1C2E7A4B" TypeError.
Proof.
  intros E.
  assert (Href : found_reference E sample_session = Some "LUNES-ALIC-1-9F1C2E7A4B")
    by reflexivity.
  split; [exact Href|].
  exact (proj1 (success_fallback_failure_credits_nothing E sample_session _
                  paid_with_text_amount _ [] TypeError
                  Href eq_refl eq_refl eq_refl eq_refl eq_refl eq_refl eq_refl)).
Defined.

(** ** The sign of the fallback *)

Lemma binary_round_aux_sign sx mx ex lx :
  has_sign sx (binary_round_aux prec emax sx mx ex lx).
Proof.
  unfold binary_round_aux.
  destruct (shr_fexp prec emax mx ex lx) as [mrs e'].
  destruct (shr_fexp prec emax _ e' loc_Exact) as [mrs' e''].
  destruct (shr_m mrs'); simpl; auto.
  destruct (Z.leb _ _); reflexivity.
Qed.

Lemma float_div_sign s p q :
  has_sign s (float_div (S754_finite s p 0) (S754_finite false q 0)).
Proof.
  unfold float_div, SFdiv.
  destruct (SFdiv_core_binary prec emax (Zpos p) 0 (Zpos q) 0) as [[mz ez] lz].
  rewrite xorb_false_r. apply binary_round_aux_sign.
Qed.

Lemma float_mul_hundred_sign s x :
  has_sign s x -> has_sign s (float_mul x (float_of_Z 100)).
Proof.
  assert (H : float_of_Z 100 = S754_finite false 7036874417766400 (-46))
    by (vm_compute; reflexivity).
  rewrite H. unfold float_mul, SFmul.
  destruct x as [s0|s0| |s0 m e]; simpl; try (intros ->; apply xorb_false_r); auto.
  intros ->. rewrite xorb_false_r. apply binary_round_aux_sign.
Qed.

Lemma int_of_float_sign s x n :
  has_sign s x -> int_of_float x = Ok n -> if s then n <= 0 else 0 <= n.
Proof.
  destruct x as [s0|s0| |s0 m e]; simpl; try discriminate.
  - intros _ H. injection H as <-. destruct s; lia.
  - intros -> H. injection H as <-.
    assert (Ha : 0 <= match e with
                      | 0 => Z.pos m
                      | Z.pos k => Z.shiftl (Z.pos m) (Z.pos k)
                      | Z.neg k => Z.shiftr (Z.pos m) (Z.pos k)
                      end).
    { destruct e; [lia | apply Z.shiftl_nonneg; lia | apply Z.shiftr_nonneg; lia]. }
    destruct s; lia.
Qed.

(** X26. The fallback never turns the sign of an integer amount: a payment
    of zero or more subunits gives zero or more credits, a negative amount
    none above zero. *)
Theorem fallback_credits_keeps_sign data a n :
  getitem data "amount" = Ok (JInt a) ->
  fallback_credits data = Ok n ->
  (0 <= a -> 0 <= n) /\ (a <= 0 -> n <= 0).
Proof.
  unfold fallback_credits. intros ->. simpl. unfold int_truediv.
  destruct a as [|p|p].
  - vm_compute. intros H. injection H as <-. split; discriminate.
  - pose proof (float_div_sign false p 100) as Hq.
    destruct (float_div (S754_finite false p 0) (S754_finite false 100 0)) as [s0|s0| |s0 m e] eqn:Hdiv;
      unfold rbind; try discriminate; intros Hn;
      pose proof (int_of_float_sign false _ n (float_mul_hundred_sign false _ Hq) Hn) as Hsign;
      simpl in Hsign; split; lia.
  - pose proof (float_div_sign true p 100) as Hq.
    destruct (float_div (S754_finite true p 0) (S754_finite false 100 0)) as [s0|s0| |s0 m e] eqn:Hdiv;
      unfold rbind; try discriminate; intros Hn;
      pose proof (int_of_float_sign true _ n (float_mul_hundred_sign true _ Hq) Hn) as Hsign;
      simpl in Hsign; split; lia.
Qed.

Lemma fallback_credits_keeps_sign_witness :
  getitem (JDict [("amount", JInt 1999)]) "amount" = Ok (JInt 1999) /\
  fallback_credits (JDict [("amount", JInt 1999)]) = Ok 1998 /\
  (0 <= 1999 -> 0 <= 1998).
Proof.
  assert (H1 : getitem (JDict [("amount", JInt 1999)]) "amount" = Ok (JInt 1999))
    by reflexivity.
  assert (H2 : fallback_credits (JDict [("amount", JInt 1999)]) = Ok 1998)
    by (vm_compute; reflexivity).
  split; [exact H1|]. split; [exact H2|].
  exact (proj1 (fallback_credits_keeps_sign _ 1999 1998 H1 H2)).
Defined.
